(** * PoseSearch database scripting libraries

    A shallow embedding of the two Blueprint/Python function libraries of the
    repository,

    - [UPoseSearchPythonExtensionsLibrary]
      (PoseSearchPythonExtensionsLibrary.cpp), and
    - [UAAANKPoseBlueprintLibrary] (AAANKPoseBlueprintLibrary.cpp),

    together with the part of the host engine's object model their code
    calls into.  Every exposed function is a short, synchronous sequence of
    host calls on one database object; the embedding runs them in a state
    monad over a [World] that holds the live database objects, the journal
    of host calls, the output log and the progress-dialog events. *)

From Stdlib Require Import ZArith String Ascii List Bool Lia.
From stdpp Require Import base option list strings gmap pretty.

Local Open Scope Z_scope.
Local Open Scope string_scope.

(** ** Engine data *)

(** An [FName]; the engine interns names, the model compares the text. *)
Abbreviation FName := string (only parsing).

(** The address of a live [UPoseSearchDatabase].  A C++ pointer
    [UPoseSearchDatabase*] is an [option ObjectPtr]: [None] is [nullptr]. *)
Abbreviation ObjectPtr := positive (only parsing).

(** A [UAnimSequence] object: its address and what [GetName()] answers.
    A pointer [UAnimSequence*] is an [option UAnimSequence]. *)
Record UAnimSequence := mkAnimSequence {
  SequenceAddress : positive;
  SequenceName : string }.

Record UPoseSearchSchema := mkSchema {
  SchemaName : string }.

(** The engine struct handed to [AddAnimationAsset].  Its declaration is the
    engine's; the two libraries assign different members of it
    ([Sequence] in PoseSearchPythonExtensionsLibrary.cpp:28,
    [AnimAsset] in AAANKPoseBlueprintLibrary.cpp:40), so both are kept.
    A default-constructed struct has both null. *)
Record FPoseSearchDatabaseAnimationAsset := mkAnimationAsset {
  Sequence : option UAnimSequence;
  AnimAsset : option UAnimSequence }.

Definition DefaultAnimationAsset : FPoseSearchDatabaseAnimationAsset :=
  {| Sequence := None; AnimAsset := None |}.

Definition set_Sequence (s : option UAnimSequence)
    (a : FPoseSearchDatabaseAnimationAsset) : FPoseSearchDatabaseAnimationAsset :=
  {| Sequence := s; AnimAsset := AnimAsset a |}.

Definition set_AnimAsset (s : option UAnimSequence)
    (a : FPoseSearchDatabaseAnimationAsset) : FPoseSearchDatabaseAnimationAsset :=
  {| Sequence := Sequence a; AnimAsset := s |}.

(** *** Reflection *)

Inductive FFieldClass :=
| FArrayProperty
| FObjectProperty
| FStructProperty
| FNumericProperty.

Global Instance FFieldClass_eq_dec : EqDecision FFieldClass.
Proof. solve_decision. Defined.

Record FProperty := mkProperty {
  PropertyName : FName;
  PropertyClass : FFieldClass }.

(** [CastField<FArrayProperty>(P)]: the property itself when it is an array
    property, null otherwise. *)
Definition CastField_FArrayProperty (P : option FProperty) : option FProperty :=
  match P with
  | Some Q => if decide (PropertyClass Q = FArrayProperty) then Some Q else None
  | None => None
  end.

(** A [UClass]: its reflected properties by name. *)
Record UClass := mkClass {
  Properties : gmap FName FProperty }.

(** *** The database object *)
Record UPoseSearchDatabase := mkDatabase {
  Name : string;                 (* GetName() *)
  OutermostName : string;        (* GetOutermost()->GetName() *)
  Class : UClass;                (* GetClass() *)
  Schema : option UPoseSearchSchema;
  AnimationAssets : list FPoseSearchDatabaseAnimationAsset }.

Definition set_AnimationAssets (l : list FPoseSearchDatabaseAnimationAsset)
    (d : UPoseSearchDatabase) : UPoseSearchDatabase :=
  {| Name := Name d; OutermostName := OutermostName d; Class := Class d;
     Schema := Schema d; AnimationAssets := l |}.

(** *** Saving *)

(** [EObjectFlags] and [ESaveFlags] values of the engine headers. *)
Definition RF_Public : Z := 0x1.
Definition RF_Standalone : Z := 0x2.
Definition SAVE_NoError : Z := 0x1.

Record FSavePackageArgs := mkSaveArgs {
  TopLevelFlags : Z;
  SaveFlags : Z }.

(** The file name computed by the engine from a package name and an
    extension; the model keeps the two arguments. *)
Inductive FFilename :=
| LongPackageNameToFilename (PackageName Extension : string).

Definition GetAssetPackageExtension : string := ".uasset".

(** ** The world the libraries run in *)

Inductive ELogVerbosity := Error | Warning | Log.

Global Instance ELogVerbosity_eq_dec : EqDecision ELogVerbosity.
Proof. solve_decision. Defined.

(** One [UE_LOG(LogTemp, ...)] line: its verbosity and its formatted text. *)
Definition LogLine : Type := ELogVerbosity * string.

(** An [FPropertyChangedEvent]: the property it was built from, or null. *)
Definition FPropertyChangedEvent : Type := option FProperty.

(** The calls the libraries make on a database object or its package, in
    the order the engine receives them. *)
Inductive HostCall :=
| CallModify (p : ObjectPtr)
| CallAddAnimationAsset (p : ObjectPtr) (a : FPoseSearchDatabaseAnimationAsset)
| CallMarkPackageDirty (p : ObjectPtr)
| CallPostEditChangeProperty (p : ObjectPtr) (e : FPropertyChangedEvent)
| CallEmptyValues (p : ObjectPtr) (P : FProperty)
| CallSavePackage (Outer : string) (p : ObjectPtr) (f : FFilename)
                  (a : FSavePackageArgs).

(** What an [FScopedSlowTask] shows.  The amounts of work are [float]s;
    every amount the code passes is a whole number (the [float] an [int32]
    converts to, [1.0f]) and is kept as the integer it equals. *)
Inductive SlowTaskEvent :=
| SlowTaskCreate (AmountOfWork : Z) (Message : string)
| SlowTaskMakeDialog
| SlowTaskEnterProgressFrame (ExpectedWork : Z).

Record World := mkWorld {
  Objects : gmap ObjectPtr UPoseSearchDatabase;
  Calls : list HostCall;
  OutputLog : list LogLine;
  Progress : list SlowTaskEvent;
  (** what [UPackage::SavePackage] answers for a file *)
  SaveOutcome : FFilename -> bool }.

Definition set_Objects (f : gmap ObjectPtr UPoseSearchDatabase ->
                            gmap ObjectPtr UPoseSearchDatabase) (w : World) : World :=
  {| Objects := f (Objects w); Calls := Calls w; OutputLog := OutputLog w;
     Progress := Progress w; SaveOutcome := SaveOutcome w |}.

Definition add_Call (c : HostCall) (w : World) : World :=
  {| Objects := Objects w; Calls := Calls w ++ [c]; OutputLog := OutputLog w;
     Progress := Progress w; SaveOutcome := SaveOutcome w |}.

Definition add_LogLine (l : LogLine) (w : World) : World :=
  {| Objects := Objects w; Calls := Calls w; OutputLog := OutputLog w ++ [l];
     Progress := Progress w; SaveOutcome := SaveOutcome w |}.

Definition add_Progress (e : SlowTaskEvent) (w : World) : World :=
  {| Objects := Objects w; Calls := Calls w; OutputLog := OutputLog w;
     Progress := Progress w ++ [e]; SaveOutcome := SaveOutcome w |}.

(** ** The editor monad: state passing over the world *)

Definition Editor (A : Type) : Type := World -> A * World.

Global Instance Editor_ret : MRet Editor := fun A a w => (a, w).
Global Instance Editor_bind : MBind Editor :=
  fun A B f m w => let '(a, w') := m w in f a w'.

Definition modify (f : World -> World) : Editor unit := fun w => (tt, f w).
Definition gets {A} (f : World -> A) : Editor A := fun w => (f w, w).

(** The value a call computes and the world it leaves. *)
Definition result {A} (r : A * World) : A := fst r.
Definition world {A} (r : A * World) : World := snd r.

(** ** Host operations

    The engine methods the libraries call are the host's, not the
    repository's.  Each mutating call is journalled in [Calls]; the two that
    change what the properties below observe act on the object.  A call
    through a pointer to no live object changes no object. *)

(** [UE_LOG(LogTemp, v, text)]. *)
Definition UE_LOG (v : ELogVerbosity) (text : string) : Editor unit :=
  modify (add_LogLine (v, text)).

Definition with_object (p : ObjectPtr)
    (f : UPoseSearchDatabase -> UPoseSearchDatabase) : Editor unit :=
  modify (fun w =>
    match Objects w !! p with
    | Some d => set_Objects (insert p (f d)) w
    | None => w
    end).

Definition read_object {A} (p : ObjectPtr) (f : UPoseSearchDatabase -> A)
    (dangling : A) : Editor A :=
  gets (fun w => match Objects w !! p with Some d => f d | None => dangling end).

(** Modelled from the spec: [UObject::Modify], the host's undo mechanism;
    the model journals the call. *)
Definition Modify (p : ObjectPtr) : Editor unit :=
  modify (add_Call (CallModify p)).

(** Modelled from the spec: [UPoseSearchDatabase::AddAnimationAsset], the
    host collection API the insertion is delegated to; it appends the record
    to the animation-asset list, so that the count grows by one. *)
Definition AddAnimationAsset (p : ObjectPtr)
    (a : FPoseSearchDatabaseAnimationAsset) : Editor unit :=
  modify (add_Call (CallAddAnimationAsset p a));;
  with_object p (fun d => set_AnimationAssets (AnimationAssets d ++ [a]) d).

(** Modelled from the spec: [UObject::MarkPackageDirty]; the model journals
    the call. *)
Definition MarkPackageDirty (p : ObjectPtr) : Editor unit :=
  modify (add_Call (CallMarkPackageDirty p)).

(** Modelled from the spec: [UObject::PostEditChangeProperty], the
    property-changed notification that has the host refresh the search
    index; the model journals the call with its event. *)
Definition PostEditChangeProperty (p : ObjectPtr) (e : FPropertyChangedEvent)
    : Editor unit :=
  modify (add_Call (CallPostEditChangeProperty p e)).

(** [Database->GetName()]. *)
Definition GetName (p : ObjectPtr) : Editor string :=
  read_object p Name EmptyString.

(** [Database->GetOutermost()->GetName()]. *)
Definition GetOutermostName (p : ObjectPtr) : Editor string :=
  read_object p OutermostName EmptyString.

(** [Database->Schema]. *)
Definition GetSchema (p : ObjectPtr) : Editor (option UPoseSearchSchema) :=
  read_object p Schema None.

(** Modelled from the spec: [UPoseSearchDatabase::GetNumAnimationAssets],
    the typed accessor of the animation count: the [int32] length of the
    animation-asset list (a [TArray] holds at most [INT32_MAX] elements). *)
Definition GetNumAnimationAssets (p : ObjectPtr) : Editor Z :=
  read_object p (fun d => Z.of_nat (length (AnimationAssets d))) 0.

(** Modelled from the spec: the reflection lookup
    [Database->GetClass()->FindPropertyByName(N)] of a named field. *)
Definition FindPropertyByName (p : ObjectPtr) (N : FName)
    : Editor (option FProperty) :=
  read_object p (fun d => Properties (Class d) !! N) None.

(** Modelled from the spec: [FScriptArrayHelper(ArrayProperty,
    ArrayPtr).EmptyValues()], which clears the array field the property
    designates in the object: the animation-asset list. *)
Definition EmptyValues (p : ObjectPtr) (P : FProperty) : Editor unit :=
  modify (add_Call (CallEmptyValues p P));;
  with_object p (set_AnimationAssets []).

(** Modelled from the spec: [UPackage::SavePackage], the host's package save
    routine; the model journals the call and answers what the world holds
    for the file. *)
Definition SavePackage (Outer : string) (p : ObjectPtr) (f : FFilename)
    (a : FSavePackageArgs) : Editor bool :=
  modify (add_Call (CallSavePackage Outer p f a));;
  gets (fun w => SaveOutcome w f).

(** [FScopedSlowTask Progress(AmountOfWork, Message)] and its two methods;
    [AmountOfWork] and [ExpectedWork] are the engine's [float] parameters. *)
Definition FScopedSlowTask (AmountOfWork : Z) (Message : string) : Editor unit :=
  modify (add_Progress (SlowTaskCreate AmountOfWork Message)).

Definition MakeDialog : Editor unit :=
  modify (add_Progress SlowTaskMakeDialog).

Definition EnterProgressFrame (ExpectedWork : Z) : Editor unit :=
  modify (add_Progress (SlowTaskEnterProgressFrame ExpectedWork)).

(** ** Machine integers and formatting *)

Definition INT32_MAX : Z := 2147483647.

(** Two's-complement wrap-around of a 32-bit signed integer. *)
Definition int32 (z : Z) : Z := (z + 2 ^ 31) mod 2 ^ 32 - 2 ^ 31.

(** The [float] an [int32] converts to where the code passes
    [AnimSequences.Num()] for a [float] parameter: the integer itself up to
    24 significant bits, beyond that the nearest multiple of the power of
    two that leaves 24 bits, ties to the even one. *)
Definition float_of_int32 (z : Z) : Z :=
  if (Z.abs z <? 2 ^ 24)%Z then z
  else
    let e := Z.log2 (Z.abs z) - 23 in
    let q := Z.abs z / 2 ^ e in
    let r := Z.abs z mod 2 ^ e in
    let half := 2 ^ (e - 1) in
    let q' := if (r <? half)%Z then q
              else if (half <? r)%Z then q + 1
              else if Z.even q then q else q + 1 in
    Z.sgn z * (q' * 2 ^ e).

(** [TArray::Num()] of an array given as a list. *)
Definition Num {A} (l : list A) : Z := Z.of_nat (length l).

(** The line feed written [\n] in the format strings. *)
Definition LF : string := String (ascii_of_nat 10) EmptyString.

(** [%d] of an [int32]. *)
Definition fmt_d (z : Z) : string := pretty z.

(** ** PoseSearchPythonExtensionsLibrary.cpp *)
Module UPoseSearchPythonExtensionsLibrary.

(** Lines 9-43. *)
Definition AddAnimationToDatabase (Database : option ObjectPtr)
    (AnimSequence : option UAnimSequence) : Editor bool :=
  match Database, AnimSequence with
  | Some D, Some A =>
      DatabaseName ← GetName D;
      UE_LOG Log ("Adding animation '" +:+ SequenceName A +:+
                  "' to database '" +:+ DatabaseName +:+ "'");;
      Modify D;;
      let AnimAsset := set_Sequence (Some A) DefaultAnimationAsset in
      AddAnimationAsset D AnimAsset;;
      MarkPackageDirty D;;
      PostEditChangeProperty D None;;
      UE_LOG Log "Successfully added animation to database";;
      mret true
  | _, _ =>
      UE_LOG Error "AddAnimationToDatabase: Invalid database or animation";;
      mret false
  end.

(** The range-for of lines 64-79, with [AddedCount] threaded through. *)
Fixpoint AddAnimationsToDatabase_loop (D : ObjectPtr) (Total : Z)
    (AnimSequences : list (option UAnimSequence)) (AddedCount : Z)
    : Editor Z :=
  match AnimSequences with
  | [] => mret AddedCount
  | Anim :: rest =>
      EnterProgressFrame 1;;
      AddedCount' ←
        match Anim with
        | Some A =>
            let AnimAsset := set_Sequence (Some A) DefaultAnimationAsset in
            AddAnimationAsset D AnimAsset;;
            let AddedCount' := int32 (AddedCount + 1) in
            UE_LOG Log ("Added animation " +:+ fmt_d AddedCount' +:+ "/" +:+
                        fmt_d Total +:+ ": " +:+ SequenceName A);;
            mret AddedCount'
        | None => mret AddedCount
        end;
      AddAnimationsToDatabase_loop D Total rest AddedCount'
  end.

(** Lines 45-92. *)
Definition AddAnimationsToDatabase (Database : option ObjectPtr)
    (AnimSequences : list (option UAnimSequence)) : Editor Z :=
  match Database with
  | None =>
      UE_LOG Error "AddAnimationsToDatabase: Invalid database";;
      mret 0
  | Some D =>
      FScopedSlowTask (float_of_int32 (Num AnimSequences))
        "Adding animations to database";;
      MakeDialog;;
      Modify D;;
      AddedCount ← AddAnimationsToDatabase_loop D (Num AnimSequences)
                      AnimSequences 0;
      MarkPackageDirty D;;
      PostEditChangeProperty D None;;
      DatabaseName ← GetName D;
      UE_LOG Log ("Added " +:+ fmt_d AddedCount +:+ "/" +:+
                  fmt_d (Num AnimSequences) +:+ " animations to database '" +:+
                  DatabaseName +:+ "'");;
      mret AddedCount
  end.

(** Lines 94-140. *)
Definition BuildDatabase (Database : option ObjectPtr) : Editor bool :=
  match Database with
  | None =>
      UE_LOG Error "BuildDatabase: Invalid database";;
      mret false
  | Some D =>
      DatabaseName ← GetName D;
      UE_LOG Log ("Building database '" +:+ DatabaseName +:+ "'");;
      FScopedSlowTask 1 "Building PoseSearch database";;
      MakeDialog;;
      Modify D;;
      PostEditChangeProperty D None;;
      MarkPackageDirty D;;
      PackageName ← GetOutermostName D;
      let PackageFileName :=
        LongPackageNameToFilename PackageName GetAssetPackageExtension in
      let SaveArgs :=
        {| TopLevelFlags := Z.lor RF_Public RF_Standalone;
           SaveFlags := SAVE_NoError |} in
      bSaved ← SavePackage PackageName D PackageFileName SaveArgs;
      if (bSaved : bool) then
        UE_LOG Log "Database built and saved successfully";;
        mret true
      else
        UE_LOG Warning "Database built but save failed";;
        mret false
  end.

(** Lines 142-151. *)
Definition GetAnimationCount (Database : option ObjectPtr) : Editor Z :=
  match Database with
  | None => mret 0
  | Some D => GetNumAnimationAssets D
  end.

(** Lines 153-198. *)
Definition ClearDatabase (Database : option ObjectPtr) : Editor bool :=
  match Database with
  | None =>
      UE_LOG Error "ClearDatabase: Invalid database";;
      mret false
  | Some D =>
      DatabaseName ← GetName D;
      UE_LOG Log ("Clearing database '" +:+ DatabaseName +:+ "'");;
      Modify D;;
      let AnimationAssetsPropertyName : FName := "AnimationAssets" in
      AnimAssetsProperty ← FindPropertyByName D AnimationAssetsPropertyName;
      match AnimAssetsProperty with
      | None =>
          UE_LOG Error "Could not find AnimationAssets property";;
          mret false
      | Some _ =>
          match CastField_FArrayProperty AnimAssetsProperty with
          | None => mret false
          | Some ArrayProperty =>
              EmptyValues D ArrayProperty;;
              MarkPackageDirty D;;
              PostEditChangeProperty D AnimAssetsProperty;;
              UE_LOG Log "Database cleared successfully";;
              mret true
          end
      end
  end.

(** Lines 200-213. *)
Definition GetDatabaseInfo (Database : option ObjectPtr) : Editor string :=
  match Database with
  | None => mret "Invalid database"
  | Some D =>
      AnimCount ← GetNumAnimationAssets D;
      Schema ← GetSchema D;
      let SchemaName :=
        match Schema with Some Sch => SchemaName Sch | None => "None" end in
      DatabaseName ← GetName D;
      mret ("Database: " +:+ DatabaseName +:+ LF +:+
            "Animations: " +:+ fmt_d AnimCount +:+ LF +:+
            "Schema: " +:+ SchemaName)
  end.

End UPoseSearchPythonExtensionsLibrary.

(** ** AAANKPose.cpp *)
Module FAAANKPoseModule.


(** Lines 7-10: the body is a comment. *)
Definition StartupModule : Editor unit := mret tt.

(** Lines 12-16: the body is a comment. *)
Definition ShutdownModule : Editor unit := mret tt.

End FAAANKPoseModule.

(** ** AAANKPoseBlueprintLibrary.cpp

    The bodies are guarded by [#if WITH_EDITOR ... #else ... #endif]; the
    build's value of the macro is the first argument of every guarded
    function once the section is closed. *)
Module UAAANKPoseBlueprintLibrary.
Section Build.

Variable WITH_EDITOR : bool.


(** Lines 21-59. *)
Definition AddAnimationToDatabase (Database : option ObjectPtr)
    (AnimSequence : option UAnimSequence) : Editor bool :=
  match Database, AnimSequence with
  | Some D, Some A =>
      DatabaseName ← GetName D;
      UE_LOG Log ("Adding animation '" +:+ SequenceName A +:+
                  "' to database '" +:+ DatabaseName +:+ "'");;
      if WITH_EDITOR then
        Modify D;;
        let AnimAsset := set_AnimAsset (Some A) DefaultAnimationAsset in
        AddAnimationAsset D AnimAsset;;
        MarkPackageDirty D;;
        PostEditChangeProperty D None;;
        UE_LOG Log "Successfully added animation to database";;
        mret true
      else
        UE_LOG Warning
          "AddAnimationToDatabase is only available in editor builds";;
        mret false
  | _, _ =>
      UE_LOG Error "AddAnimationToDatabase: Invalid database or animation";;
      mret false
  end.

(** The range-for of lines 81-96, with [AddedCount] threaded through. *)
Fixpoint AddAnimationsToDatabase_loop (D : ObjectPtr) (Total : Z)
    (AnimSequences : list (option UAnimSequence)) (AddedCount : Z)
    : Editor Z :=
  match AnimSequences with
  | [] => mret AddedCount
  | Anim :: rest =>
      EnterProgressFrame 1;;
      AddedCount' ←
        match Anim with
        | Some A =>
            let AnimAsset := set_AnimAsset (Some A) DefaultAnimationAsset in
            AddAnimationAsset D AnimAsset;;
            let AddedCount' := int32 (AddedCount + 1) in
            UE_LOG Log ("Added animation " +:+ fmt_d AddedCount' +:+ "/" +:+
                        fmt_d Total +:+ ": " +:+ SequenceName A);;
            mret AddedCount'
        | None => mret AddedCount
        end;
      AddAnimationsToDatabase_loop D Total rest AddedCount'
  end.

(** Lines 61-113. *)
Definition AddAnimationsToDatabase (Database : option ObjectPtr)
    (AnimSequences : list (option UAnimSequence)) : Editor Z :=
  match Database with
  | None =>
      UE_LOG Error "AddAnimationsToDatabase: Invalid database";;
      mret 0
  | Some D =>
      if WITH_EDITOR then
        FScopedSlowTask (float_of_int32 (Num AnimSequences))
          "Adding animations to database";;
        MakeDialog;;
        Modify D;;
        AddedCount ← AddAnimationsToDatabase_loop D (Num AnimSequences)
                        AnimSequences 0;
        MarkPackageDirty D;;
        PostEditChangeProperty D None;;
        DatabaseName ← GetName D;
        UE_LOG Log ("Added " +:+ fmt_d AddedCount +:+ "/" +:+
                    fmt_d (Num AnimSequences) +:+
                    " animations to database '" +:+ DatabaseName +:+ "'");;
        mret AddedCount
      else
        UE_LOG Warning
          "AddAnimationsToDatabase is only available in editor builds";;
        mret 0
  end.

(** Lines 115-145. *)
Definition BuildDatabase (Database : option ObjectPtr) : Editor bool :=
  match Database with
  | None =>
      UE_LOG Error "BuildDatabase: Invalid database";;
      mret false
  | Some D =>
      if WITH_EDITOR then
        DatabaseName ← GetName D;
        UE_LOG Log ("Building database '" +:+ DatabaseName +:+ "'");;
        FScopedSlowTask 1 "Building PoseSearch database";;
        MakeDialog;;
        Modify D;;
        PostEditChangeProperty D None;;
        MarkPackageDirty D;;
        UE_LOG Log "Database rebuilt successfully";;
        mret true
      else
        UE_LOG Warning "BuildDatabase is only available in editor builds";;
        mret false
  end.

(** Lines 147-155. *)
Definition GetAnimationCount (Database : option ObjectPtr) : Editor Z :=
  match Database with
  | None => mret 0
  | Some D => GetNumAnimationAssets D
  end.

(** Lines 157-207. *)
Definition ClearDatabase (Database : option ObjectPtr) : Editor bool :=
  match Database with
  | None =>
      UE_LOG Error "ClearDatabase: Invalid database";;
      mret false
  | Some D =>
      if WITH_EDITOR then
        DatabaseName ← GetName D;
        UE_LOG Log ("Clearing database '" +:+ DatabaseName +:+ "'");;
        Modify D;;
        let AnimationAssetsPropertyName : FName := "AnimationAssets" in
        AnimAssetsProperty ← FindPropertyByName D AnimationAssetsPropertyName;
        match AnimAssetsProperty with
        | None =>
            UE_LOG Error "Could not find AnimationAssets property";;
            mret false
        | Some _ =>
            match CastField_FArrayProperty AnimAssetsProperty with
            | None => mret false
            | Some ArrayProperty =>
                EmptyValues D ArrayProperty;;
                MarkPackageDirty D;;
                PostEditChangeProperty D AnimAssetsProperty;;
                UE_LOG Log "Database cleared successfully";;
                mret true
            end
        end
      else
        UE_LOG Warning "ClearDatabase is only available in editor builds";;
        mret false
  end.

(** Lines 209-222. *)
Definition GetDatabaseInfo (Database : option ObjectPtr) : Editor string :=
  match Database with
  | None => mret "Invalid database"
  | Some D =>
      AnimCount ← GetNumAnimationAssets D;
      Schema ← GetSchema D;
      let SchemaName :=
        match Schema with Some Sch => SchemaName Sch | None => "None" end in
      DatabaseName ← GetName D;
      mret ("Database: " +:+ DatabaseName +:+ LF +:+
            "Animations: " +:+ fmt_d AnimCount +:+ LF +:+
            "Schema: " +:+ SchemaName)
  end.

End Build.
End UAAANKPoseBlueprintLibrary.

Module PS := UPoseSearchPythonExtensionsLibrary.
Module NK := UAAANKPoseBlueprintLibrary.

(** ** A sample world, for running the libraries *)

Definition ArrayAssets : FProperty :=
  {| PropertyName := "AnimationAssets"; PropertyClass := FArrayProperty |}.

Definition PoseSearchDatabaseClass : UClass :=
  {| Properties := {[ "AnimationAssets" := ArrayAssets ]} |}.

Definition Walk : UAnimSequence :=
  {| SequenceAddress := 11; SequenceName := "Walk" |}.
Definition Run : UAnimSequence :=
  {| SequenceAddress := 12; SequenceName := "Run" |}.

Definition SampleDatabase : UPoseSearchDatabase :=
  {| Name := "PSD_Locomotion";
     OutermostName := "/Game/PSD_Locomotion";
     Class := PoseSearchDatabaseClass;
     Schema := Some {| SchemaName := "PSS_Default" |};
     AnimationAssets := [ {| Sequence := Some Walk; AnimAsset := None |} ] |}.

Definition SampleWorld (d : UPoseSearchDatabase) (saves : bool) : World :=
  {| Objects := {[ 1%positive := d ]}; Calls := []; OutputLog := [];
     Progress := []; SaveOutcome := fun _ => saves |}.

(** A database with no animation and a class without the property. *)
Definition BareClass : UClass := {| Properties := ∅ |}.

Definition EmptyDatabase : UPoseSearchDatabase :=
  {| Name := "PSD_Empty"; OutermostName := "/Game/PSD_Empty";
     Class := PoseSearchDatabaseClass; Schema := None; AnimationAssets := [] |}.

Definition BareDatabase : UPoseSearchDatabase :=
  {| Name := "PSD_Bare"; OutermostName := "/Game/PSD_Bare";
     Class := BareClass; Schema := None; AnimationAssets := [] |}.

(** A database whose class reflects [AnimationAssets] as a struct property. *)
Definition StructAssets : FProperty :=
  {| PropertyName := "AnimationAssets"; PropertyClass := FStructProperty |}.

Definition StructClass : UClass :=
  {| Properties := {[ "AnimationAssets" := StructAssets ]} |}.

Definition StructDatabase : UPoseSearchDatabase :=
  {| Name := "PSD_Struct"; OutermostName := "/Game/PSD_Struct";
     Class := StructClass; Schema := None;
     AnimationAssets := [ {| Sequence := Some Walk; AnimAsset := None |} ] |}.

(** A world with two live databases. *)
Definition TwoDatabases : World :=
  {| Objects := {[ 1%positive := SampleDatabase; 2%positive := EmptyDatabase ]};
     Calls := []; OutputLog := []; Progress := [];
     SaveOutcome := fun _ => true |}.

(** ** Vocabulary of the statements *)

(** The non-null entries of an input array, in order. *)
Definition ValidSequences (l : list (option UAnimSequence)) : list UAnimSequence :=
  omap id l.

Definition is_null {A} (a : option A) : bool :=
  match a with None => true | Some _ => false end.

(** N and M of a batch: how many entries are non-null, how many null. *)
Definition NumValid (l : list (option UAnimSequence)) : nat :=
  length (ValidSequences l).
Definition NumNull (l : list (option UAnimSequence)) : nat :=
  length (List.filter is_null l).

(** The record each library builds for a sequence. *)
Definition SequenceAsset (A : UAnimSequence) : FPoseSearchDatabaseAnimationAsset :=
  set_Sequence (Some A) DefaultAnimationAsset.
Definition AnimAssetAsset (A : UAnimSequence) : FPoseSearchDatabaseAnimationAsset :=
  set_AnimAsset (Some A) DefaultAnimationAsset.

(** The value of [AddedCount] after the loop, started at [c]. *)
Fixpoint CountAfter (l : list (option UAnimSequence)) (c : Z) : Z :=
  match l with
  | [] => c
  | Some _ :: rest => CountAfter rest (int32 (c + 1))
  | None :: rest => CountAfter rest c
  end.

(** The lines the loop logs, started at [c]. *)
Fixpoint AddedLines (Total : Z) (l : list (option UAnimSequence)) (c : Z)
    : list LogLine :=
  match l with
  | [] => []
  | Some A :: rest =>
      (Log, "Added animation " +:+ fmt_d (int32 (c + 1)) +:+ "/" +:+
            fmt_d Total +:+ ": " +:+ SequenceName A)
      :: AddedLines Total rest (int32 (c + 1))
  | None :: rest => AddedLines Total rest c
  end.

(** The world after a loop that handed the records [new] to the host for
    the live object [db] at [D]. *)
Definition AfterLoop (D : ObjectPtr) (db : UPoseSearchDatabase)
    (new : list FPoseSearchDatabaseAnimationAsset) (lines : list LogLine)
    (frames : nat) (w : World) : World :=
  {| Objects :=
       <[D := set_AnimationAssets (AnimationAssets db ++ new) db]> (Objects w);
     Calls := Calls w ++ map (CallAddAnimationAsset D) new;
     OutputLog := OutputLog w ++ lines;
     Progress := Progress w ++ replicate frames (SlowTaskEnterProgressFrame 1);
     SaveOutcome := SaveOutcome w |}.

(** Calling a function once per element, in order, collecting the answers. *)
Fixpoint call_each {A B} (f : A -> Editor B) (l : list A) : Editor (list B) :=
  match l with
  | [] => mret []
  | a :: rest => b ← f a; bs ← call_each f rest; mret (b :: bs)
  end.

(** A handle a caller can pass: null, or the address of a live object. *)
Definition ValidHandle (w : World) (Database : option ObjectPtr) : Prop :=
  match Database with
  | None => True
  | Some D => is_Some (Objects w !! D)
  end.

(** The sequence a record carries, whichever member holds it. *)
Definition carried (a : FPoseSearchDatabaseAnimationAsset) : option UAnimSequence :=
  match Sequence a with Some s => Some s | None => AnimAsset a end.



(** The world a successful single add leaves. *)
Definition SingleWorld (mk : UAnimSequence -> FPoseSearchDatabaseAnimationAsset)
    (D : ObjectPtr) (db : UPoseSearchDatabase) (A : UAnimSequence) (w : World)
    : World :=
  {| Objects :=
       <[D := set_AnimationAssets (AnimationAssets db ++ [mk A]) db]> (Objects w);
     Calls := Calls w ++
       [CallModify D; CallAddAnimationAsset D (mk A); CallMarkPackageDirty D;
        CallPostEditChangeProperty D None];
     OutputLog := OutputLog w ++
       [(Log, "Adding animation '" +:+ SequenceName A +:+ "' to database '" +:+
              Name db +:+ "'");
        (Log, "Successfully added animation to database")];
     Progress := Progress w;
     SaveOutcome := SaveOutcome w |}.

(** The world a batch add leaves. *)
Definition BatchWorld (mk : UAnimSequence -> FPoseSearchDatabaseAnimationAsset)
    (D : ObjectPtr) (db : UPoseSearchDatabase)
    (l : list (option UAnimSequence)) (w : World) : World :=
  {| Objects :=
       <[D := set_AnimationAssets
                (AnimationAssets db ++ map mk (ValidSequences l)) db]> (Objects w);
     Calls := Calls w ++
       [CallModify D] ++
       map (CallAddAnimationAsset D) (map mk (ValidSequences l)) ++
       [CallMarkPackageDirty D; CallPostEditChangeProperty D None];
     OutputLog := OutputLog w ++
       AddedLines (Num l) l 0 ++
       [(Log, "Added " +:+ fmt_d (CountAfter l 0) +:+ "/" +:+ fmt_d (Num l) +:+
              " animations to database '" +:+ Name db +:+ "'")];
     Progress := Progress w ++
       [SlowTaskCreate (float_of_int32 (Num l)) "Adding animations to database";
        SlowTaskMakeDialog] ++
       replicate (length l) (SlowTaskEnterProgressFrame 1);
     SaveOutcome := SaveOutcome w |}.

(** The file [BuildDatabase] saves the package of [db] to, the arguments it
    passes, and the call. *)
Definition SavedFile (db : UPoseSearchDatabase) : FFilename :=
  LongPackageNameToFilename (OutermostName db) GetAssetPackageExtension.

Definition BuildSaveArgs : FSavePackageArgs :=
  {| TopLevelFlags := Z.lor RF_Public RF_Standalone; SaveFlags := SAVE_NoError |}.

Definition SaveCall (D : ObjectPtr) (db : UPoseSearchDatabase) : HostCall :=
  CallSavePackage (OutermostName db) D (SavedFile db) BuildSaveArgs.

(** The calls both [BuildDatabase] make before any save. *)
Definition RebuildCalls (D : ObjectPtr) : list HostCall :=
  [CallModify D; CallPostEditChangeProperty D None; CallMarkPackageDirty D].

(** The line [ClearDatabase] logs on entry. *)
Definition ClearingLine (db : UPoseSearchDatabase) : LogLine :=
  (Log, "Clearing database '" +:+ Name db +:+ "'").

(** What [GetDatabaseInfo] is to answer for a database. *)
Definition DatabaseInfo (db : UPoseSearchDatabase) : string :=
  "Database: " +:+ Name db +:+ LF +:+
  "Animations: " +:+ fmt_d (Z.of_nat (length (AnimationAssets db))) +:+ LF +:+
  "Schema: " +:+ match Schema db with Some Sch => SchemaName Sch | None => "None" end.

(** The property named [AnimationAssets] of the class of a database. *)
Definition AnimationAssetsProperty (db : UPoseSearchDatabase) : option FProperty :=
  Properties (Class db) !! "AnimationAssets".

(** What a batch add is to achieve: it answers [N] and the object at [D]
    holds its former entries followed by [N] new ones, one per non-null input
    in order; no other object changes. *)
Definition BatchAdds (mk : UAnimSequence -> FPoseSearchDatabaseAnimationAsset)
    (D : ObjectPtr) (db : UPoseSearchDatabase)
    (l : list (option UAnimSequence)) (N : nat) (w : World) (r : Z * World)
    : Prop :=
  result r = Z.of_nat N /\
  length (map mk (ValidSequences l)) = N /\
  Objects (world r) =
    <[D := set_AnimationAssets
             (AnimationAssets db ++ map mk (ValidSequences l)) db]> (Objects w).

(** The two readings of the order of steps of an ingestion function: the
    listed steps alone, and dirty-marking and notification once per
    insertion. *)
Definition ListedCalls (D : ObjectPtr)
    (new : list FPoseSearchDatabaseAnimationAsset) : list HostCall :=
  map (CallAddAnimationAsset D) new ++
  [CallMarkPackageDirty D; CallPostEditChangeProperty D None].

Definition PerInsertionCalls (D : ObjectPtr)
    (new : list FPoseSearchDatabaseAnimationAsset) : list HostCall :=
  flat_map (fun a => [CallAddAnimationAsset D a; CallMarkPackageDirty D;
                      CallPostEditChangeProperty D None]) new.


(** ** PoseSearchPythonExtensions.cpp *)
Module FPoseSearchPythonExtensionsModule.

(** Lines 5-8. *)
Definition StartupModule : Editor unit :=
  UE_LOG Log "PoseSearchPythonExtensions module has started".

(** Lines 10-13. *)
Definition ShutdownModule : Editor unit :=
  UE_LOG Log "PoseSearchPythonExtensions module has shut down".

End FPoseSearchPythonExtensionsModule.

(** ** Vocabulary of the further properties *)

Global Instance UAnimSequence_eq_dec : EqDecision UAnimSequence.
Proof. solve_decision. Defined.

(** The exposed operations of a library, with their arguments other than
    the database handle. *)
Inductive Operation :=
| OpAddAnimationToDatabase (AnimSequence : option UAnimSequence)
| OpAddAnimationsToDatabase (AnimSequences : list (option UAnimSequence))
| OpBuildDatabase
| OpGetAnimationCount
| OpClearDatabase
| OpGetDatabaseInfo.

(** The world an operation of the first library leaves. *)
Definition PS_effect (op : Operation) (Database : option ObjectPtr) (w : World)
    : World :=
  match op with
  | OpAddAnimationToDatabase A => world (PS.AddAnimationToDatabase Database A w)
  | OpAddAnimationsToDatabase l => world (PS.AddAnimationsToDatabase Database l w)
  | OpBuildDatabase => world (PS.BuildDatabase Database w)
  | OpGetAnimationCount => world (PS.GetAnimationCount Database w)
  | OpClearDatabase => world (PS.ClearDatabase Database w)
  | OpGetDatabaseInfo => world (PS.GetDatabaseInfo Database w)
  end.

(** The world an operation of the second library leaves, in a build. *)
Definition NK_effect (WITH_EDITOR : bool) (op : Operation)
    (Database : option ObjectPtr) (w : World) : World :=
  match op with
  | OpAddAnimationToDatabase A =>
      world (NK.AddAnimationToDatabase WITH_EDITOR Database A w)
  | OpAddAnimationsToDatabase l =>
      world (NK.AddAnimationsToDatabase WITH_EDITOR Database l w)
  | OpBuildDatabase => world (NK.BuildDatabase WITH_EDITOR Database w)
  | OpGetAnimationCount => world (NK.GetAnimationCount Database w)
  | OpClearDatabase => world (NK.ClearDatabase WITH_EDITOR Database w)
  | OpGetDatabaseInfo => world (NK.GetDatabaseInfo Database w)
  end.

(** The object a journalled host call is made on. *)
Definition call_target (c : HostCall) : ObjectPtr :=
  match c with
  | CallModify p => p
  | CallAddAnimationAsset p _ => p
  | CallMarkPackageDirty p => p
  | CallPostEditChangeProperty p _ => p
  | CallEmptyValues p _ => p
  | CallSavePackage _ p _ _ => p
  end.

(** Two states of one object that differ at most in the animation-asset
    list. *)
Definition same_identity (d d' : UPoseSearchDatabase) : Prop :=
  Name d' = Name d /\ OutermostName d' = OutermostName d /\
  Class d' = Class d /\ Schema d' = Schema d.

(** What a call through [Database] may do to the object at [p]: it neither
    creates nor destroys it, keeps its name, package, class and schema, and
    leaves it alone altogether unless [p] is the handle passed. *)
Definition object_kept (Database : option ObjectPtr) (p : ObjectPtr)
    (o o' : option UPoseSearchDatabase) : Prop :=
  match o, o' with
  | Some d, Some d' => same_identity d d' /\ (Database <> Some p -> d' = d)
  | None, None => True
  | _, _ => False
  end.

(** The calls, log lines and progress events a run added. *)
Definition journal_grows (Database : option ObjectPtr) (w w' : World) : Prop :=
  (exists new, Calls w' = (Calls w ++ new)%list /\
               Forall (fun c => Database = Some (call_target c)) new) /\
  (exists lines, OutputLog w' = (OutputLog w ++ lines)%list) /\
  (exists events, Progress w' = (Progress w ++ events)%list).

(** A run confined to the object behind [Database]. *)
Definition Confined (Database : option ObjectPtr) (w w' : World) : Prop :=
  (forall p, object_kept Database p (Objects w !! p) (Objects w' !! p)) /\
  journal_grows Database w w' /\
  SaveOutcome w' = SaveOutcome w.

Definition keeps (Database : option ObjectPtr) {A} (m : Editor A) : Prop :=
  forall w, Confined Database w (world (m w)).

(** How many entries of a list carry a given sequence. *)
Definition carries (A : UAnimSequence) (a : FPoseSearchDatabaseAnimationAsset)
    : bool :=
  bool_decide (carried a = Some A).

Definition occurrences (A : UAnimSequence)
    (l : list FPoseSearchDatabaseAnimationAsset) : nat :=
  length (List.filter (carries A) l).

Definition is_Notification (c : HostCall) : bool :=
  match c with CallPostEditChangeProperty _ _ => true | _ => false end.

Definition is_Modify (c : HostCall) : bool :=
  match c with CallModify _ => true | _ => false end.

(** The host calls of one successful single add. *)
Definition SingleCalls (mk : UAnimSequence -> FPoseSearchDatabaseAnimationAsset)
    (D : ObjectPtr) (A : UAnimSequence) : list HostCall :=
  [CallModify D; CallAddAnimationAsset D (mk A); CallMarkPackageDirty D;
   CallPostEditChangeProperty D None].

(** The line the batch loop logs for its [k]-th insertion. *)
Definition AddedLine (Total : Z) (k : nat) (A : UAnimSequence) : LogLine :=
  (Log, "Added animation " +:+ fmt_d (Z.of_nat k) +:+ "/" +:+ fmt_d Total +:+
        ": " +:+ SequenceName A).

(** The work the progress events of a slow task account for. *)
Definition frame_work (e : SlowTaskEvent) : Z :=
  match e with SlowTaskEnterProgressFrame n => n | _ => 0 end.

Definition work_entered (es : list SlowTaskEvent) : Z :=
  fold_right Z.add 0 (map frame_work es).

(** A run that left the objects, the journal of host calls and the progress
    dialog as they were. *)
Definition inert (w w' : World) : Prop :=
  Objects w' = Objects w /\ Calls w' = Calls w /\ Progress w' = Progress w.

(** * Properties *)

(** ** Running the monad *)

Ltac editor_unfold :=
  unfold mbind, mret, Editor_bind, Editor_ret, UE_LOG, Modify, AddAnimationAsset,
    MarkPackageDirty, PostEditChangeProperty, GetName, GetOutermostName,
    GetSchema, GetNumAnimationAssets, FindPropertyByName, EmptyValues,
    SavePackage, FScopedSlowTask, MakeDialog, EnterProgressFrame,
    with_object, read_object, modify, gets in *.

Ltac editor_simpl := cbn -[lookup insert].
Ltac editor_run := repeat (progress (editor_unfold; editor_simpl)).

Lemma World_eq (w1 w2 : World) :
  Objects w1 = Objects w2 -> Calls w1 = Calls w2 ->
  OutputLog w1 = OutputLog w2 -> Progress w1 = Progress w2 ->
  SaveOutcome w1 = SaveOutcome w2 -> w1 = w2.
Proof. destruct w1, w2; cbn; intros; subst; reflexivity. Qed.

Ltac world_eq :=
  apply World_eq; cbn; rewrite <- ?app_assoc; cbn; try reflexivity.

Lemma set_AnimationAssets_same (db : UPoseSearchDatabase) :
  set_AnimationAssets (AnimationAssets db) db = db.
Proof. destruct db; reflexivity. Qed.

Lemma int32_small (z : Z) : - 2 ^ 31 <= z <= INT32_MAX -> int32 z = z.
Proof.
  unfold int32, INT32_MAX. intros Hz.
  rewrite Z.mod_small; lia.
Qed.

Lemma NumValid_cons_Some A l : NumValid (Some A :: l) = S (NumValid l).
Proof. reflexivity. Qed.

Lemma NumValid_cons_None l : NumValid (None :: l) = NumValid l.
Proof. reflexivity. Qed.

Lemma NumValid_le_length l : (NumValid l <= length l)%nat.
Proof.
  induction l as [|[A|] l IH].
  - cbn. lia.
  - rewrite NumValid_cons_Some. cbn [length]. lia.
  - rewrite NumValid_cons_None. cbn [length]. lia.
Qed.

Lemma NumValid_NumNull l : length l = (NumValid l + NumNull l)%nat.
Proof.
  induction l as [|[A|] l IH].
  - reflexivity.
  - rewrite NumValid_cons_Some. unfold NumNull in *. cbn. lia.
  - rewrite NumValid_cons_None. unfold NumNull in *. cbn. lia.
Qed.

(** Within the range of [int32] the counter counts the non-null entries. *)
Lemma CountAfter_exact l : forall c,
  0 <= c -> c + Z.of_nat (NumValid l) <= INT32_MAX ->
  CountAfter l c = c + Z.of_nat (NumValid l).
Proof.
  induction l as [|[A|] l IH]; intros c Hc Hmax.
  - unfold NumValid; cbn. lia.
  - rewrite NumValid_cons_Some in *. cbn [CountAfter].
    rewrite int32_small by (unfold INT32_MAX in *; lia).
    rewrite IH by lia. lia.
  - rewrite NumValid_cons_None in *. cbn [CountAfter]. apply IH; assumption.
Qed.

(** ** The batch loop *)

Lemma AfterLoop_nil D db w :
  Objects w !! D = Some db -> AfterLoop D db [] [] 0 w = w.
Proof.
  intros H. apply World_eq; cbn; rewrite ?app_nil_r; try reflexivity.
  rewrite set_AnimationAssets_same. apply insert_id, H.
Qed.

Ltac loop_spec :=
  let l := fresh "l" in let IH := fresh "IH" in
  intros l; induction l as [|[A|] l IH]; intros c w db H;
  [ cbn; editor_run; rewrite AfterLoop_nil by exact H; reflexivity
  | cbn [PS.AddAnimationsToDatabase_loop NK.AddAnimationsToDatabase_loop];
    editor_run; rewrite H; cbn;
    rewrite IH with (db := set_AnimationAssets (AnimationAssets db ++ [_]) db)
      by (cbn; apply lookup_insert_eq);
    cbn; f_equal; apply World_eq; cbn; rewrite <- ?app_assoc; try reflexivity;
    rewrite insert_insert_eq; reflexivity
  | cbn [PS.AddAnimationsToDatabase_loop NK.AddAnimationsToDatabase_loop];
    editor_run;
    rewrite IH with (db := db) by exact H;
    cbn; f_equal; apply World_eq; cbn; rewrite <- ?app_assoc; reflexivity ].

Lemma PS_loop_spec D Total : forall l c w db,
  Objects w !! D = Some db ->
  PS.AddAnimationsToDatabase_loop D Total l c w =
  (CountAfter l c,
   AfterLoop D db (map SequenceAsset (ValidSequences l)) (AddedLines Total l c)
     (length l) w).
Proof. loop_spec. Qed.

Lemma NK_loop_spec D Total : forall l c w db,
  Objects w !! D = Some db ->
  NK.AddAnimationsToDatabase_loop D Total l c w =
  (CountAfter l c,
   AfterLoop D db (map AnimAssetAsset (ValidSequences l)) (AddedLines Total l c)
     (length l) w).
Proof. loop_spec. Qed.
Lemma PS_AddAnimationToDatabase_run w D db A :
  Objects w !! D = Some db ->
  PS.AddAnimationToDatabase (Some D) (Some A) w =
  (true, SingleWorld SequenceAsset D db A w).
Proof.
  intros H. unfold PS.AddAnimationToDatabase. editor_run. rewrite H. cbn.
  f_equal. world_eq.
Qed.

Lemma NK_AddAnimationToDatabase_run w D db A :
  Objects w !! D = Some db ->
  NK.AddAnimationToDatabase true (Some D) (Some A) w =
  (true, SingleWorld AnimAssetAsset D db A w).
Proof.
  intros H. unfold NK.AddAnimationToDatabase. editor_run. rewrite H. cbn.
  f_equal. world_eq.
Qed.

Ltac batch_run H spec :=
  editor_run; erewrite spec by exact H; cbn;
  rewrite lookup_insert_eq; cbn;
  f_equal; apply World_eq; cbn; rewrite <- ?app_assoc; reflexivity.

Lemma PS_AddAnimationsToDatabase_run w D db l :
  Objects w !! D = Some db ->
  PS.AddAnimationsToDatabase (Some D) l w =
  (CountAfter l 0, BatchWorld SequenceAsset D db l w).
Proof.
  intros H. unfold PS.AddAnimationsToDatabase. batch_run H PS_loop_spec.
Qed.

Lemma NK_AddAnimationsToDatabase_run w D db l :
  Objects w !! D = Some db ->
  NK.AddAnimationsToDatabase true (Some D) l w =
  (CountAfter l 0, BatchWorld AnimAssetAsset D db l w).
Proof.
  intros H. unfold NK.AddAnimationsToDatabase. batch_run H NK_loop_spec.
Qed.

(** ** Exact runs of the other operations on a live object *)

Lemma PS_BuildDatabase_run w D db :
  Objects w !! D = Some db ->
  PS.BuildDatabase (Some D) w =
  (SaveOutcome w (SavedFile db),
   {| Objects := Objects w;
      Calls := Calls w ++ RebuildCalls D ++ [SaveCall D db];
      OutputLog := OutputLog w ++
        [(Log, "Building database '" +:+ Name db +:+ "'");
         if SaveOutcome w (SavedFile db)
         then (Log, "Database built and saved successfully")
         else (Warning, "Database built but save failed")];
      Progress := Progress w ++
        [SlowTaskCreate 1 "Building PoseSearch database"; SlowTaskMakeDialog];
      SaveOutcome := SaveOutcome w |}).
Proof.
  intros H. unfold PS.BuildDatabase. editor_run. rewrite H. cbn.
  fold (SavedFile db).
  destruct (SaveOutcome w (SavedFile db)); f_equal; world_eq.
Qed.

Lemma NK_BuildDatabase_run w D db :
  Objects w !! D = Some db ->
  NK.BuildDatabase true (Some D) w =
  (true,
   {| Objects := Objects w;
      Calls := Calls w ++ RebuildCalls D;
      OutputLog := OutputLog w ++
        [(Log, "Building database '" +:+ Name db +:+ "'");
         (Log, "Database rebuilt successfully")];
      Progress := Progress w ++
        [SlowTaskCreate 1 "Building PoseSearch database"; SlowTaskMakeDialog];
      SaveOutcome := SaveOutcome w |}).
Proof.
  intros H. unfold NK.BuildDatabase. editor_run. rewrite H. cbn.
  f_equal; world_eq.
Qed.

Lemma PS_ClearDatabase_missing w D db :
  Objects w !! D = Some db ->
  AnimationAssetsProperty db = None ->
  PS.ClearDatabase (Some D) w =
  (false,
   add_LogLine (Error, "Could not find AnimationAssets property")
     (add_Call (CallModify D) (add_LogLine (ClearingLine db) w))).
Proof.
  intros H HP. unfold AnimationAssetsProperty in HP.
  unfold PS.ClearDatabase. editor_run. rewrite H. editor_simpl. rewrite HP.
  reflexivity.
Qed.

Lemma PS_ClearDatabase_not_array w D db P :
  Objects w !! D = Some db ->
  AnimationAssetsProperty db = Some P ->
  PropertyClass P <> FArrayProperty ->
  PS.ClearDatabase (Some D) w =
  (false, add_Call (CallModify D) (add_LogLine (ClearingLine db) w)).
Proof.
  intros H HP HC. unfold AnimationAssetsProperty in HP.
  unfold PS.ClearDatabase. editor_run. rewrite H. editor_simpl. rewrite HP. editor_simpl.
  destruct (decide (PropertyClass P = FArrayProperty)); [contradiction|].
  reflexivity.
Qed.

Lemma PS_ClearDatabase_array w D db P :
  Objects w !! D = Some db ->
  AnimationAssetsProperty db = Some P ->
  PropertyClass P = FArrayProperty ->
  PS.ClearDatabase (Some D) w =
  (true,
   {| Objects := <[D := set_AnimationAssets [] db]> (Objects w);
      Calls := Calls w ++
        [CallModify D; CallEmptyValues D P; CallMarkPackageDirty D;
         CallPostEditChangeProperty D (Some P)];
      OutputLog := OutputLog w ++
        [ClearingLine db; (Log, "Database cleared successfully")];
      Progress := Progress w;
      SaveOutcome := SaveOutcome w |}).
Proof.
  intros H HP HC. unfold AnimationAssetsProperty in HP.
  unfold PS.ClearDatabase. editor_run. rewrite H. editor_simpl. rewrite HP. editor_simpl.
  destruct (decide (PropertyClass P = FArrayProperty)); [|contradiction].
  editor_run. rewrite H. cbn. f_equal; world_eq.
Qed.


Lemma NK_GetAnimationCount_same Database :
  NK.GetAnimationCount Database = PS.GetAnimationCount Database.
Proof. reflexivity. Qed.

Lemma NK_GetDatabaseInfo_same Database :
  NK.GetDatabaseInfo Database = PS.GetDatabaseInfo Database.
Proof. reflexivity. Qed.

Lemma PS_GetAnimationCount_run w D db :
  Objects w !! D = Some db ->
  PS.GetAnimationCount (Some D) w = (Z.of_nat (length (AnimationAssets db)), w).
Proof.
  intros H. unfold PS.GetAnimationCount. editor_run. rewrite H. reflexivity.
Qed.

Lemma PS_GetDatabaseInfo_run w D db :
  Objects w !! D = Some db ->
  PS.GetDatabaseInfo (Some D) w = (DatabaseInfo db, w).
Proof.
  intros H. unfold PS.GetDatabaseInfo. editor_run. rewrite H. reflexivity.
Qed.

(** ** Batch add: what it reports and what it leaves (C1) *)

Lemma NK_AddAnimationsToDatabase_no_editor w D l :
  NK.AddAnimationsToDatabase false (Some D) l w =
  (0, add_LogLine
        (Warning, "AddAnimationsToDatabase is only available in editor builds") w).
Proof. reflexivity. Qed.

(** C1, counterexample.  Built without [WITH_EDITOR], the batch add of the
    second library given two non-null entries and one null entry answers 0,
    not 2, and the database gains nothing. *)
Lemma batch_add_outside_editor_reports_zero :
  let l := [Some Run; None; Some Walk] in
  let w := SampleWorld SampleDatabase true in
  let r := NK.AddAnimationsToDatabase false (Some 1%positive) l w in
  Objects w !! 1%positive = Some SampleDatabase /\
  NumValid l = 2%nat /\ NumNull l = 1%nat /\
  result r = 0 /\
  ~ BatchAdds AnimAssetAsset 1%positive SampleDatabase l 2 w r /\
  Objects (world r) = Objects w.
Proof.
  cbn zeta. repeat split; try reflexivity.
  intros [Hr _]. vm_compute in Hr. discriminate Hr.
Qed.

(** C1, as amended.  For the first library, and for the second in an editor
    build, a batch add through a non-null handle with N non-null and M null
    entries answers exactly N, and afterwards the animation-asset list holds
    the former entries followed by N new ones (the null entries are skipped,
    nothing is rolled back); no other object changes.  Built without
    [WITH_EDITOR] the second library logs a warning, answers 0 and adds
    nothing. *)
Theorem batch_add_reports_valid_entries (w : World) (D : ObjectPtr)
    (db : UPoseSearchDatabase) (l : list (option UAnimSequence)) (N M : nat) :
  Objects w !! D = Some db ->
  NumValid l = N -> NumNull l = M ->
  Num l <= INT32_MAX ->
  length l = (N + M)%nat /\
  BatchAdds SequenceAsset D db l N w
    (PS.AddAnimationsToDatabase (Some D) l w) /\
  BatchAdds AnimAssetAsset D db l N w
    (NK.AddAnimationsToDatabase true (Some D) l w) /\
  (result (NK.AddAnimationsToDatabase false (Some D) l w) = 0 /\
   Objects (world (NK.AddAnimationsToDatabase false (Some D) l w)) = Objects w /\
   OutputLog (world (NK.AddAnimationsToDatabase false (Some D) l w)) =
     (OutputLog w ++
      [(Warning, "AddAnimationsToDatabase is only available in editor builds")])%list).
Proof.
  intros H HN HM Hmax.
  assert (Hcount : CountAfter l 0 = Z.of_nat N).
  { rewrite CountAfter_exact; [lia | lia |].
    pose proof (NumValid_le_length l). unfold Num in Hmax. lia. }
  split; [subst; apply NumValid_NumNull|].
  rewrite (PS_AddAnimationsToDatabase_run w D db l H).
  rewrite (NK_AddAnimationsToDatabase_run w D db l H).
  rewrite NK_AddAnimationsToDatabase_no_editor.
  unfold BatchAdds, result, world; cbn [fst snd].
  rewrite !length_map. fold (NumValid l).
  repeat split; try assumption; reflexivity.
Qed.

Lemma batch_add_reports_valid_entries_witness :
  let l := [Some Run; None; Some Walk] in
  let w := SampleWorld SampleDatabase true in
  length l = (2 + 1)%nat /\
  BatchAdds SequenceAsset 1%positive SampleDatabase l 2 w
    (PS.AddAnimationsToDatabase (Some 1%positive) l w) /\
  BatchAdds AnimAssetAsset 1%positive SampleDatabase l 2 w
    (NK.AddAnimationsToDatabase true (Some 1%positive) l w) /\
  (result (NK.AddAnimationsToDatabase false (Some 1%positive) l w) = 0 /\
   Objects (world (NK.AddAnimationsToDatabase false (Some 1%positive) l w))
   = Objects w /\
   OutputLog (world (NK.AddAnimationsToDatabase false (Some 1%positive) l w)) =
     (OutputLog w ++
      [(Warning, "AddAnimationsToDatabase is only available in editor builds")])%list).
Proof.
  intros l w.
  apply (batch_add_reports_valid_entries w 1%positive SampleDatabase l 2 1).
  - reflexivity.
  - reflexivity.
  - reflexivity.
  - vm_compute. discriminate.
Defined.

(** ** Counting after adds (C5) *)

Lemma NK_AddAnimationToDatabase_no_editor w D db A :
  Objects w !! D = Some db ->
  NK.AddAnimationToDatabase false (Some D) (Some A) w =
  (false,
   add_LogLine
     (Warning, "AddAnimationToDatabase is only available in editor builds")
     (add_LogLine
        (Log, "Adding animation '" +:+ SequenceName A +:+ "' to database '" +:+
              Name db +:+ "'") w)).
Proof.
  intros H. unfold NK.AddAnimationToDatabase. editor_run. rewrite H. reflexivity.
Qed.

Lemma call_each_cons {A B} (f : A -> Editor B) a rest w :
  call_each f (a :: rest) w =
  (result (f a w) :: result (call_each f rest (world (f a w))),
   world (call_each f rest (world (f a w)))).
Proof.
  cbn [call_each]. unfold mbind, mret, Editor_bind, Editor_ret, result, world.
  destruct (f a w) as [b w1]. cbn [fst snd].
  destruct (call_each f rest w1) as [bs w2]. reflexivity.
Qed.

Ltac single_adds run mk :=
  let seqs := fresh "seqs" in let IH := fresh "IH" in
  let IHr := fresh "IHr" in let IHw := fresh "IHw" in
  intros seqs; induction seqs as [|A seqs IH]; intros w db H;
  [ cbn; split; [reflexivity|];
    rewrite app_nil_r, set_AnimationAssets_same; symmetry; apply insert_id, H
  | rewrite call_each_cons, (run w _ db A H);
    unfold result, world in *; cbn [fst snd];
    match type of H with Objects _ !! ?D = _ =>
      destruct (IH (SingleWorld mk D db A w)
                   (set_AnimationAssets (AnimationAssets db ++ [mk A]) db))
        as [IHr IHw]; [apply lookup_insert_eq|]
    end;
    rewrite IHr, IHw; cbn; split; [reflexivity|];
    rewrite insert_insert_eq, <- app_assoc; reflexivity ].

Lemma PS_single_adds D : forall seqs w db,
  Objects w !! D = Some db ->
  let r := call_each (fun A => PS.AddAnimationToDatabase (Some D) (Some A)) seqs w in
  result r = replicate (length seqs) true /\
  Objects (world r) =
    <[D := set_AnimationAssets
             (AnimationAssets db ++ map SequenceAsset seqs) db]> (Objects w).
Proof. single_adds PS_AddAnimationToDatabase_run SequenceAsset. Qed.

Lemma NK_single_adds D : forall seqs w db,
  Objects w !! D = Some db ->
  let r := call_each (fun A => NK.AddAnimationToDatabase true (Some D) (Some A))
             seqs w in
  result r = replicate (length seqs) true /\
  Objects (world r) =
    <[D := set_AnimationAssets
             (AnimationAssets db ++ map AnimAssetAsset seqs) db]> (Objects w).
Proof. single_adds NK_AddAnimationToDatabase_run AnimAssetAsset. Qed.

Lemma NK_single_adds_no_editor D : forall seqs w db,
  Objects w !! D = Some db ->
  let r := call_each (fun A => NK.AddAnimationToDatabase false (Some D) (Some A))
             seqs w in
  result r = replicate (length seqs) false /\
  Objects (world r) = Objects w.
Proof.
  intros seqs; induction seqs as [|A seqs IH]; intros w db H.
  - cbn. split; reflexivity.
  - rewrite call_each_cons, (NK_AddAnimationToDatabase_no_editor w D db A H).
    unfold result, world in *; cbn [fst snd].
    match goal with |- context [call_each _ seqs ?w1] =>
      destruct (IH w1 db H) as [IHr IHw]
    end.
    rewrite IHr, IHw. split; reflexivity.
Qed.

Lemma count_of_inserted w D db (new : list FPoseSearchDatabaseAnimationAsset) w' :
  Objects w' = <[D := set_AnimationAssets (AnimationAssets db ++ new) db]> (Objects w) ->
  result (PS.GetAnimationCount (Some D) w') =
  Z.of_nat (length (AnimationAssets db)) + Z.of_nat (length new).
Proof.
  intros Hw.
  rewrite (PS_GetAnimationCount_run w' D
             (set_AnimationAssets (AnimationAssets db ++ new) db)).
  - unfold result; cbn. rewrite length_app. lia.
  - rewrite Hw. apply lookup_insert_eq.
Qed.

(** C5.  For a non-null database whose count is C: after K calls of the
    single add on non-null sequences that all answered true, and after a
    batch add with K non-null entries that answered K, the count is C + K.
    This holds for both libraries in every build; for the first library and
    for the second in an editor build the adds do answer so. *)
Theorem count_after_adding (WITH_EDITOR : bool) (w : World) (D : ObjectPtr)
    (db : UPoseSearchDatabase) (C : Z) (K : nat)
    (seqs : list UAnimSequence) (l : list (option UAnimSequence)) :
  Objects w !! D = Some db ->
  result (PS.GetAnimationCount (Some D) w) = C ->
  length seqs = K -> NumValid l = K ->
  let ps1 := call_each (fun A => PS.AddAnimationToDatabase (Some D) (Some A))
               seqs w in
  let nk1 := call_each
               (fun A => NK.AddAnimationToDatabase WITH_EDITOR (Some D) (Some A))
               seqs w in
  let ps := PS.AddAnimationsToDatabase (Some D) l w in
  let nk := NK.AddAnimationsToDatabase WITH_EDITOR (Some D) l w in
  (Forall (eq true) (result ps1) ->
   result (PS.GetAnimationCount (Some D) (world ps1)) = C + Z.of_nat K) /\
  (Forall (eq true) (result nk1) ->
   result (NK.GetAnimationCount (Some D) (world nk1)) = C + Z.of_nat K) /\
  (result ps = Z.of_nat K ->
   result (PS.GetAnimationCount (Some D) (world ps)) = C + Z.of_nat K) /\
  (result nk = Z.of_nat K ->
   result (NK.GetAnimationCount (Some D) (world nk)) = C + Z.of_nat K) /\
  result ps1 = replicate K true /\
  (WITH_EDITOR = true -> result nk1 = replicate K true) /\
  (Num l <= INT32_MAX ->
   result ps = Z.of_nat K /\ (WITH_EDITOR = true -> result nk = Z.of_nat K)).
Proof.
  intros H HC HK HN ps1 nk1 ps nk.
  rewrite (PS_GetAnimationCount_run w D db H) in HC. unfold result in HC.
  cbn [fst] in HC. subst C.
  destruct (PS_single_adds D seqs w db H) as [Hps1r Hps1w].
  fold ps1 in Hps1r, Hps1w.
  assert (Hps : ps = (CountAfter l 0, BatchWorld SequenceAsset D db l w))
    by apply (PS_AddAnimationsToDatabase_run w D db l H).
  assert (Hcount : Num l <= INT32_MAX -> CountAfter l 0 = Z.of_nat K).
  { intros Hmax. rewrite CountAfter_exact; [lia | lia |].
    pose proof (NumValid_le_length l). unfold Num in Hmax. lia. }
  repeat split.
  - intros _. rewrite (count_of_inserted w D db _ _ Hps1w), length_map. lia.
  - intros Hall. destruct WITH_EDITOR.
    + destruct (NK_single_adds D seqs w db H) as [_ Hw]. fold nk1 in Hw.
      rewrite NK_GetAnimationCount_same.
      rewrite (count_of_inserted w D db _ _ Hw), length_map. lia.
    + destruct (NK_single_adds_no_editor D seqs w db H) as [Hr Hw].
      fold nk1 in Hr, Hw. rewrite Hr in Hall.
      destruct seqs as [|A seqs]; [|inversion Hall; discriminate].
      rewrite NK_GetAnimationCount_same.
      rewrite (PS_GetAnimationCount_run _ D db) by (rewrite Hw; exact H).
      cbn in HK. subst K. unfold result; cbn. lia.
  - intros _. rewrite Hps. unfold world; cbn [snd].
    rewrite (count_of_inserted w D db (map SequenceAsset (ValidSequences l)))
      by reflexivity.
    rewrite length_map. fold (NumValid l). lia.
  - intros Hres. rewrite NK_GetAnimationCount_same. destruct WITH_EDITOR.
    + unfold nk. rewrite (NK_AddAnimationsToDatabase_run w D db l H).
      unfold world; cbn [snd].
      rewrite (count_of_inserted w D db (map AnimAssetAsset (ValidSequences l)))
        by reflexivity.
      rewrite length_map. fold (NumValid l). lia.
    + unfold nk in *. rewrite NK_AddAnimationsToDatabase_no_editor in *.
      unfold result, world in *; cbn [fst snd] in *.
      rewrite (PS_GetAnimationCount_run _ D db) by exact H.
      cbn. lia.
  - rewrite Hps1r, HK. reflexivity.
  - intros ->. destruct (NK_single_adds D seqs w db H) as [Hr _].
    fold nk1 in Hr. rewrite Hr, HK. reflexivity.
  - rewrite Hps. unfold result; cbn [fst]. auto.
  - intros ->. unfold nk. rewrite (NK_AddAnimationsToDatabase_run w D db l H).
    unfold result; cbn [fst]. auto.
Qed.

Lemma count_after_adding_witness :
  let w := SampleWorld SampleDatabase true in
  let D := 1%positive in
  let seqs := [Run; Walk] in
  let l := [Some Run; None; Some Walk] in
  Forall (eq true)
    (result (call_each (fun A => PS.AddAnimationToDatabase (Some D) (Some A))
               seqs w)) /\
  result (PS.GetAnimationCount (Some D)
            (world (call_each
                      (fun A => PS.AddAnimationToDatabase (Some D) (Some A))
                      seqs w))) = 1 + Z.of_nat 2 /\
  result (NK.AddAnimationsToDatabase true (Some D) l w) = Z.of_nat 2 /\
  result (NK.GetAnimationCount (Some D)
            (world (NK.AddAnimationsToDatabase true (Some D) l w)))
  = 1 + Z.of_nat 2.
Proof.
  intros w D seqs l.
  pose proof (count_after_adding true w D SampleDatabase 1 2 seqs l
                eq_refl eq_refl eq_refl eq_refl) as HT.
  cbv zeta in HT.
  destruct HT as (Hps1 & _ & _ & Hnk & Hall & _ & Hmax).
  assert (Hin : Num l <= INT32_MAX) by (vm_compute; discriminate).
  assert (Ht : Forall (eq true)
    (result (call_each (fun A => PS.AddAnimationToDatabase (Some D) (Some A))
               seqs w))).
  { rewrite Hall. repeat constructor. }
  split; [exact Ht|].
  split; [exact (Hps1 Ht)|].
  split; [exact (proj2 (Hmax Hin) eq_refl)|].
  exact (Hnk (proj2 (Hmax Hin) eq_refl)).
Defined.

(** ** Order of the host calls of the ingestion functions (C8) *)

(** C8, counterexample.  A batch add of two sequences journals
    [Modify], the two insertions, one dirty-marking and one notification:
    the journal is neither the listed steps alone (it starts with [Modify])
    nor a dirty-marking and a notification after each insertion.  Built
    without [WITH_EDITOR] the second library makes no host call at all. *)
Lemma batch_add_marks_dirty_once :
  let w := SampleWorld SampleDatabase true in
  let l := [Some Run; Some Walk] in
  let new := [SequenceAsset Run; SequenceAsset Walk] in
  let r := PS.AddAnimationsToDatabase (Some 1%positive) l w in
  Calls (world r) =
    [CallModify 1; CallAddAnimationAsset 1 (SequenceAsset Run);
     CallAddAnimationAsset 1 (SequenceAsset Walk);
     CallMarkPackageDirty 1; CallPostEditChangeProperty 1 None] /\
  Calls (world r) <> ListedCalls 1 new /\
  Calls (world r) <> PerInsertionCalls 1 new /\
  Calls (world (NK.AddAnimationsToDatabase false (Some 1%positive) l w)) = [].
Proof.
  cbv zeta. vm_compute. repeat split; discriminate.
Qed.

(** C8, as amended.  For the first library, and for the second in an editor
    build, an ingestion function called with non-null handles makes exactly
    these host calls, in this order: [Modify] once, [AddAnimationAsset] for
    each non-null animation in input order, [MarkPackageDirty] once, then
    [PostEditChangeProperty] with a null property once; the dirty-marking
    and the notification come once per call, after all the insertions.  With
    a null handle the validation makes it return before any host call. *)
Theorem ingestion_calls_in_order (w : World) (D : ObjectPtr)
    (db : UPoseSearchDatabase) (A : UAnimSequence)
    (l : list (option UAnimSequence)) :
  Objects w !! D = Some db ->
  Calls (world (PS.AddAnimationToDatabase (Some D) (Some A) w)) =
    (Calls w ++ CallModify D :: ListedCalls D [SequenceAsset A])%list /\
  Calls (world (NK.AddAnimationToDatabase true (Some D) (Some A) w)) =
    (Calls w ++ CallModify D :: ListedCalls D [AnimAssetAsset A])%list /\
  Calls (world (PS.AddAnimationsToDatabase (Some D) l w)) =
    (Calls w ++
     CallModify D :: ListedCalls D (map SequenceAsset (ValidSequences l)))%list /\
  Calls (world (NK.AddAnimationsToDatabase true (Some D) l w)) =
    (Calls w ++
     CallModify D :: ListedCalls D (map AnimAssetAsset (ValidSequences l)))%list /\
  Calls (world (PS.AddAnimationToDatabase None (Some A) w)) = Calls w /\
  Calls (world (PS.AddAnimationToDatabase (Some D) None w)) = Calls w /\
  Calls (world (PS.AddAnimationsToDatabase None l w)) = Calls w /\
  Calls (world (NK.AddAnimationToDatabase true None (Some A) w)) = Calls w /\
  Calls (world (NK.AddAnimationToDatabase true (Some D) None w)) = Calls w /\
  Calls (world (NK.AddAnimationsToDatabase true None l w)) = Calls w.
Proof.
  intros H.
  rewrite (PS_AddAnimationToDatabase_run w D db A H).
  rewrite (NK_AddAnimationToDatabase_run w D db A H).
  rewrite (PS_AddAnimationsToDatabase_run w D db l H).
  rewrite (NK_AddAnimationsToDatabase_run w D db l H).
  unfold world, ListedCalls; cbn [snd BatchWorld SingleWorld Calls map app].
  repeat split; reflexivity.
Qed.

Lemma ingestion_calls_in_order_witness :
  let w := SampleWorld SampleDatabase true in
  let l := [Some Run; None; Some Walk] in
  Calls (world (PS.AddAnimationsToDatabase (Some 1%positive) l w)) =
    (Calls w ++
     CallModify 1 :: ListedCalls 1 (map SequenceAsset (ValidSequences l)))%list /\
  Calls (world (NK.AddAnimationToDatabase true (Some 1%positive) (Some Run) w)) =
    (Calls w ++ CallModify 1 :: ListedCalls 1 [AnimAssetAsset Run])%list.
Proof.
  intros w l.
  pose proof (ingestion_calls_in_order w 1%positive SampleDatabase Run l eq_refl)
    as (_ & Hnk & Hps & _).
  split; [exact Hps | exact Hnk].
Defined.

(** ** Build and save (C3) *)




(** ** Null handles (C4) *)

(** C4, counterexample.  With a null database, [GetAnimationCount] and
    [GetDatabaseInfo] answer their sentinel and write no log line. *)
Lemma null_getters_log_nothing :
  let w := SampleWorld SampleDatabase true in
  result (PS.GetAnimationCount None w) = 0 /\
  OutputLog (world (PS.GetAnimationCount None w)) = [] /\
  OutputLog (world (NK.GetAnimationCount None w)) = [] /\
  result (PS.GetDatabaseInfo None w) = "Invalid database" /\
  OutputLog (world (PS.GetDatabaseInfo None w)) = [] /\
  OutputLog (world (NK.GetDatabaseInfo None w)) = [].
Proof. cbv zeta. repeat split; reflexivity. Qed.

(** C4, as amended.  In both libraries and every build, a call whose
    database handle (or, for the single add, whose animation handle) is null
    answers the failure sentinel: false for the single add, the build and
    the clear, 0 for the batch add and the count, the text
    [Invalid database] for the info.  The four mutating operations log one
    line at [Error] verbosity; [GetAnimationCount] and [GetDatabaseInfo] log
    nothing.  In every case the world is otherwise unchanged: no object
    changes and no host call is made. *)
Theorem null_handles_yield_sentinels (WITH_EDITOR : bool) (w : World)
    (Database : option ObjectPtr) (AnimSequence : option UAnimSequence)
    (l : list (option UAnimSequence)) :
  let logged text := add_LogLine (Error, text) w in
  (PS.AddAnimationToDatabase None AnimSequence w =
     (false, logged "AddAnimationToDatabase: Invalid database or animation") /\
   PS.AddAnimationToDatabase Database None w =
     (false, logged "AddAnimationToDatabase: Invalid database or animation") /\
   PS.AddAnimationsToDatabase None l w =
     (0, logged "AddAnimationsToDatabase: Invalid database") /\
   PS.BuildDatabase None w = (false, logged "BuildDatabase: Invalid database") /\
   PS.ClearDatabase None w = (false, logged "ClearDatabase: Invalid database") /\
   PS.GetAnimationCount None w = (0, w) /\
   PS.GetDatabaseInfo None w = ("Invalid database", w)) /\
  (NK.AddAnimationToDatabase WITH_EDITOR None AnimSequence w =
     (false, logged "AddAnimationToDatabase: Invalid database or animation") /\
   NK.AddAnimationToDatabase WITH_EDITOR Database None w =
     (false, logged "AddAnimationToDatabase: Invalid database or animation") /\
   NK.AddAnimationsToDatabase WITH_EDITOR None l w =
     (0, logged "AddAnimationsToDatabase: Invalid database") /\
   NK.BuildDatabase WITH_EDITOR None w =
     (false, logged "BuildDatabase: Invalid database") /\
   NK.ClearDatabase WITH_EDITOR None w =
     (false, logged "ClearDatabase: Invalid database") /\
   NK.GetAnimationCount None w = (0, w) /\
   NK.GetDatabaseInfo None w = ("Invalid database", w)) /\
  (forall text,
     Objects (logged text) = Objects w /\ Calls (logged text) = Calls w /\
     Progress (logged text) = Progress w /\
     OutputLog (logged text) = (OutputLog w ++ [(Error, text)])%list).
Proof.
  cbv zeta. split; [|split].
  - repeat split; try reflexivity. destruct Database; reflexivity.
  - repeat split; try reflexivity. destruct Database; reflexivity.
  - intros text. repeat split; reflexivity.
Qed.

(** ** Clearing (C6, C7, C10) *)

Lemma NK_ClearDatabase_no_editor w D :
  NK.ClearDatabase false (Some D) w =
  (false,
   add_LogLine (Warning, "ClearDatabase is only available in editor builds") w).
Proof. reflexivity. Qed.

(** C6, counterexample.  A database with no animation whose class has no
    property named [AnimationAssets]: [ClearDatabase] answers false. *)
Lemma ClearDatabase_on_empty_without_property :
  let w := SampleWorld BareDatabase true in
  let r := PS.ClearDatabase (Some 1%positive) w in
  Objects w !! 1%positive = Some BareDatabase /\
  AnimationAssets BareDatabase = [] /\
  result r = false /\
  result (NK.ClearDatabase true (Some 1%positive) w) = false /\
  result (NK.ClearDatabase false (Some 1%positive)
            (SampleWorld EmptyDatabase true)) = false.
Proof. cbv zeta. vm_compute. repeat split; reflexivity. Qed.

(** C6, as amended.  For every non-null database whose class reflects
    [AnimationAssets] as an array property and whose animation-asset list is
    already empty, [ClearDatabase] of the first library, and of the second
    in an editor build, answers true, and afterwards [GetAnimationCount]
    answers zero. *)
Theorem ClearDatabase_on_empty (w : World) (D : ObjectPtr)
    (db : UPoseSearchDatabase) (P : FProperty) :
  Objects w !! D = Some db ->
  AnimationAssets db = [] ->
  AnimationAssetsProperty db = Some P ->
  PropertyClass P = FArrayProperty ->
  let r := PS.ClearDatabase (Some D) w in
  let r' := NK.ClearDatabase true (Some D) w in
  result r = true /\
  result (PS.GetAnimationCount (Some D) (world r)) = 0 /\
  result r' = true /\
  result (NK.GetAnimationCount (Some D) (world r')) = 0.
Proof.
  intros H Hempty HP HC r r'. unfold r, r'.
  change (NK.ClearDatabase true (Some D)) with (PS.ClearDatabase (Some D)).
  change NK.GetAnimationCount with PS.GetAnimationCount.
  rewrite (PS_ClearDatabase_array w D db P H HP HC).
  unfold result, world; cbn [fst snd].
  rewrite (PS_GetAnimationCount_run _ D (set_AnimationAssets [] db))
    by apply lookup_insert_eq.
  repeat split; reflexivity.
Qed.

Lemma ClearDatabase_on_empty_witness :
  let w := SampleWorld EmptyDatabase true in
  let r := PS.ClearDatabase (Some 1%positive) w in
  let r' := NK.ClearDatabase true (Some 1%positive) w in
  result r = true /\
  result (PS.GetAnimationCount (Some 1%positive) (world r)) = 0 /\
  result r' = true /\
  result (NK.GetAnimationCount (Some 1%positive) (world r')) = 0.
Proof.
  exact (ClearDatabase_on_empty (SampleWorld EmptyDatabase true) 1%positive
           EmptyDatabase ArrayAssets eq_refl eq_refl eq_refl eq_refl).
Defined.

(** C7.  For every non-null database on which the lookup of the property
    named [AnimationAssets] fails, that is, whose class has no such property,
    [ClearDatabase] of either library (the second performs the lookup in an
    editor build only) logs the line
    [Could not find AnimationAssets property] at [Error] verbosity and
    answers false; [Modify] is the only host call and the animation-asset
    list is not cleared.  Built without [WITH_EDITOR] the second library
    performs no lookup: it answers false as well and clears nothing, logging
    its warning. *)
Theorem ClearDatabase_missing_property (w : World) (D : ObjectPtr)
    (db : UPoseSearchDatabase) :
  Objects w !! D = Some db ->
  AnimationAssetsProperty db = None ->
  let r := PS.ClearDatabase (Some D) w in
  let r' := NK.ClearDatabase true (Some D) w in
  let r0 := NK.ClearDatabase false (Some D) w in
  (result r = false /\
   OutputLog (world r) =
     (OutputLog w ++
      [ClearingLine db; (Error, "Could not find AnimationAssets property")])%list /\
   Calls (world r) = (Calls w ++ [CallModify D])%list /\
   Objects (world r) = Objects w) /\
  r' = r /\
  (result r0 = false /\ Objects (world r0) = Objects w /\
   Calls (world r0) = Calls w /\
   OutputLog (world r0) =
     (OutputLog w ++
      [(Warning, "ClearDatabase is only available in editor builds")])%list).
Proof.
  intros H HP r r' r0. unfold r, r', r0.
  change (NK.ClearDatabase true (Some D)) with (PS.ClearDatabase (Some D)).
  rewrite NK_ClearDatabase_no_editor.
  rewrite (PS_ClearDatabase_missing w D db H HP).
  unfold result, world; cbn [fst snd].
  repeat split; try reflexivity.
  cbn. rewrite <- app_assoc. reflexivity.
Qed.

Lemma ClearDatabase_missing_property_witness :
  let w := SampleWorld BareDatabase true in
  let r := PS.ClearDatabase (Some 1%positive) w in
  result r = false /\
  OutputLog (world r) =
    (OutputLog w ++
     [ClearingLine BareDatabase;
      (Error, "Could not find AnimationAssets property")])%list /\
  Calls (world r) = (Calls w ++ [CallModify 1])%list /\
  Objects (world r) = Objects w.
Proof.
  exact (proj1 (ClearDatabase_missing_property (SampleWorld BareDatabase true)
                  1%positive BareDatabase eq_refl eq_refl)).
Defined.

(** C10, counterexample.  On a database whose class reflects
    [AnimationAssets] as a struct property, [ClearDatabase] has written a
    log line by the time it answers false: the line logged on entry.
    Built without [WITH_EDITOR] the second library logs a warning and has
    not called [Modify]. *)
Lemma ClearDatabase_not_an_array_has_logged :
  let w := SampleWorld StructDatabase true in
  let r := PS.ClearDatabase (Some 1%positive) w in
  let r0 := NK.ClearDatabase false (Some 1%positive) w in
  Objects w !! 1%positive = Some StructDatabase /\
  AnimationAssetsProperty StructDatabase = Some StructAssets /\
  PropertyClass StructAssets <> FArrayProperty /\
  result r = false /\
  OutputLog w = [] /\
  OutputLog (world r) = [(Log, "Clearing database 'PSD_Struct'")] /\
  result r0 = false /\
  Calls (world r0) = [] /\
  OutputLog (world r0) =
    [(Warning, "ClearDatabase is only available in editor builds")].
Proof. cbv zeta. vm_compute. repeat split; try reflexivity. discriminate. Qed.

(** C10, as amended.  For every non-null database whose class reflects
    [AnimationAssets] as something other than an array property,
    [ClearDatabase] of the first library, and of the second in an editor
    build, answers false without logging the failure: the only line it has
    written is the one logged on entry, [Clearing database '<name>'].
    [Modify] has been called; nothing is cleared, marked dirty or
    notified. *)
Theorem ClearDatabase_not_an_array (w : World) (D : ObjectPtr)
    (db : UPoseSearchDatabase) (P : FProperty) :
  Objects w !! D = Some db ->
  AnimationAssetsProperty db = Some P ->
  PropertyClass P <> FArrayProperty ->
  let r := PS.ClearDatabase (Some D) w in
  let r' := NK.ClearDatabase true (Some D) w in
  (result r = false /\
   OutputLog (world r) =
     (OutputLog w ++ [(Log, "Clearing database '" +:+ Name db +:+ "'")])%list /\
   Calls (world r) = (Calls w ++ [CallModify D])%list /\
   Objects (world r) = Objects w /\
   Progress (world r) = Progress w) /\
  r' = r.
Proof.
  intros H HP HC r r'. unfold r, r'.
  change (NK.ClearDatabase true (Some D)) with (PS.ClearDatabase (Some D)).
  rewrite (PS_ClearDatabase_not_array w D db P H HP HC).
  unfold result, world; cbn [fst snd].
  repeat split; reflexivity.
Qed.

Lemma ClearDatabase_not_an_array_witness :
  let w := SampleWorld StructDatabase true in
  let r := PS.ClearDatabase (Some 1%positive) w in
  result r = false /\
  OutputLog (world r) =
    (OutputLog w ++
     [(Log, "Clearing database '" +:+ Name StructDatabase +:+ "'")])%list /\
  Calls (world r) = (Calls w ++ [CallModify 1])%list /\
  Objects (world r) = Objects w /\
  Progress (world r) = Progress w.
Proof.
  refine (proj1 (ClearDatabase_not_an_array (SampleWorld StructDatabase true)
                   1%positive StructDatabase StructAssets eq_refl eq_refl _)).
  discriminate.
Defined.

(** ** The summary text (C9) *)

(** C9.  For every non-null database, [GetDatabaseInfo] of either library
    answers exactly the database name, the animation count in decimal and
    the schema name (or [None] when the schema is null) on three lines, and
    leaves the world as it was: no object changes, no host call, no log
    line. *)
Theorem GetDatabaseInfo_text (w : World) (D : ObjectPtr)
    (db : UPoseSearchDatabase) :
  Objects w !! D = Some db ->
  let text :=
    "Database: " +:+ Name db +:+ LF +:+
    "Animations: " +:+ pretty (Z.of_nat (length (AnimationAssets db))) +:+ LF +:+
    "Schema: " +:+
      match Schema db with Some Sch => SchemaName Sch | None => "None" end in
  PS.GetDatabaseInfo (Some D) w = (text, w) /\
  NK.GetDatabaseInfo (Some D) w = (text, w) /\
  result (PS.GetAnimationCount (Some D) w)
  = Z.of_nat (length (AnimationAssets db)).
Proof.
  intros H text. change NK.GetDatabaseInfo with PS.GetDatabaseInfo.
  rewrite (PS_GetDatabaseInfo_run w D db H).
  rewrite (PS_GetAnimationCount_run w D db H).
  repeat split; reflexivity.
Qed.

Lemma GetDatabaseInfo_text_witness :
  let w := SampleWorld SampleDatabase true in
  PS.GetDatabaseInfo (Some 1%positive) w =
    ("Database: PSD_Locomotion" +:+ LF +:+ "Animations: 1" +:+ LF +:+
     "Schema: PSS_Default", w) /\
  NK.GetDatabaseInfo (Some 1%positive) (SampleWorld EmptyDatabase true) =
    ("Database: PSD_Empty" +:+ LF +:+ "Animations: 0" +:+ LF +:+
     "Schema: None", SampleWorld EmptyDatabase true).
Proof.
  split.
  - exact (proj1 (GetDatabaseInfo_text (SampleWorld SampleDatabase true)
                    1%positive SampleDatabase eq_refl)).
  - exact (proj1 (proj2 (GetDatabaseInfo_text (SampleWorld EmptyDatabase true)
                           1%positive EmptyDatabase eq_refl))).
Defined.

(** ** The two libraries side by side (C2) *)




(** * Further properties *)

(** ** Every operation is confined to the object behind its handle *)

Lemma same_identity_refl d : same_identity d d.
Proof. repeat split. Qed.

Lemma same_identity_trans d1 d2 d3 :
  same_identity d1 d2 -> same_identity d2 d3 -> same_identity d1 d3.
Proof.
  intros (?&?&?&?) (?&?&?&?). repeat split; congruence.
Qed.

Lemma object_kept_refl Database p o : object_kept Database p o o.
Proof. destruct o; cbn; [split; [apply same_identity_refl | reflexivity] | exact I]. Qed.

Lemma object_kept_trans Database p o1 o2 o3 :
  object_kept Database p o1 o2 -> object_kept Database p o2 o3 ->
  object_kept Database p o1 o3.
Proof.
  destruct o1, o2, o3; cbn; try tauto.
  intros [Hi Hf] [Hi' Hf']. split.
  - eapply same_identity_trans; eassumption.
  - intros Hne. rewrite (Hf' Hne). apply Hf, Hne.
Qed.

Lemma journal_grows_same Database w w' :
  Calls w' = Calls w -> OutputLog w' = OutputLog w -> Progress w' = Progress w ->
  journal_grows Database w w'.
Proof.
  intros Hc Hl He. repeat split; exists []; rewrite ?app_nil_r; auto.
Qed.

Lemma journal_grows_refl Database w : journal_grows Database w w.
Proof. apply journal_grows_same; reflexivity. Qed.

Lemma journal_grows_trans Database w1 w2 w3 :
  journal_grows Database w1 w2 -> journal_grows Database w2 w3 ->
  journal_grows Database w1 w3.
Proof.
  intros ((c & Hc & Hfc) & (l & Hl) & (e & He))
         ((c' & Hc' & Hfc') & (l' & Hl') & (e' & He')).
  repeat split.
  - exists (c ++ c')%list. rewrite Hc', Hc, <- app_assoc. split; [reflexivity|].
    apply Forall_app; split; assumption.
  - exists (l ++ l')%list. rewrite Hl', Hl, <- app_assoc. reflexivity.
  - exists (e ++ e')%list. rewrite He', He, <- app_assoc. reflexivity.
Qed.

Lemma Confined_refl Database w : Confined Database w w.
Proof.
  split; [|split]; [intros p; apply object_kept_refl
                   | apply journal_grows_refl | reflexivity].
Qed.

Lemma Confined_trans Database w1 w2 w3 :
  Confined Database w1 w2 -> Confined Database w2 w3 -> Confined Database w1 w3.
Proof.
  intros (Ho & Hj & Hs) (Ho' & Hj' & Hs').
  split; [|split].
  - intros p. eapply object_kept_trans; [apply Ho | apply Ho'].
  - eapply journal_grows_trans; eassumption.
  - congruence.
Qed.

Lemma keeps_ret Database {A} (a : A) : keeps Database (mret a).
Proof. intros w. apply Confined_refl. Qed.

Lemma keeps_bind Database {A B} (m : Editor A) (f : A -> Editor B) :
  keeps Database m -> (forall a, keeps Database (f a)) ->
  keeps Database (m ≫= f).
Proof.
  intros Hm Hf w. unfold mbind, Editor_bind, world.
  specialize (Hm w). unfold world in Hm.
  destruct (m w) as [a w1]. cbn [snd] in *.
  eapply Confined_trans; [exact Hm | apply Hf].
Qed.

Lemma keeps_gets Database {A} (f : World -> A) : keeps Database (gets f).
Proof. intros w. apply Confined_refl. Qed.

Lemma keeps_read_object Database {A} p (f : UPoseSearchDatabase -> A) a :
  keeps Database (read_object p f a).
Proof. apply keeps_gets. Qed.

Lemma keeps_UE_LOG Database v text : keeps Database (UE_LOG v text).
Proof.
  intros w. split; [|split]; cbn.
  - intros p. apply object_kept_refl.
  - repeat split; cbn.
    + exists []. rewrite app_nil_r. auto.
    + eexists. reflexivity.
    + exists []. rewrite app_nil_r. reflexivity.
  - reflexivity.
Qed.

Lemma keeps_add_Progress Database e : keeps Database (modify (add_Progress e)).
Proof.
  intros w. split; [|split]; cbn.
  - intros p. apply object_kept_refl.
  - repeat split; cbn.
    + exists []. rewrite app_nil_r. auto.
    + exists []. rewrite app_nil_r. reflexivity.
    + eexists. reflexivity.
  - reflexivity.
Qed.

Lemma keeps_add_Call D c :
  call_target c = D -> keeps (Some D) (modify (add_Call c)).
Proof.
  intros Ht w. split; [|split]; cbn.
  - intros p. apply object_kept_refl.
  - repeat split; cbn.
    + exists [c]. split; [reflexivity|]. repeat constructor. congruence.
    + exists []. rewrite app_nil_r. reflexivity.
    + exists []. rewrite app_nil_r. reflexivity.
  - reflexivity.
Qed.

Lemma keeps_with_object D f :
  (forall d, same_identity d (f d)) -> keeps (Some D) (with_object D f).
Proof.
  intros Hf w. unfold with_object, modify, world; cbn [snd].
  destruct (Objects w !! D) as [d|] eqn:HD; [|apply Confined_refl].
  split; [|split]; cbn.
  - intros p. destruct (decide (D = p)) as [<-|Hne].
    + rewrite lookup_insert_eq, HD. cbn. split; [apply Hf|].
      intros Hne. contradiction Hne. reflexivity.
    + rewrite lookup_insert_ne by exact Hne. apply object_kept_refl.
  - apply journal_grows_same; reflexivity.
  - reflexivity.
Qed.

Lemma same_identity_set_AnimationAssets l d :
  same_identity d (set_AnimationAssets l d).
Proof. repeat split. Qed.

Create HintDb keeps.

#[local] Hint Resolve keeps_ret keeps_gets keeps_read_object keeps_UE_LOG
  keeps_add_Progress same_identity_set_AnimationAssets : keeps.

Lemma keeps_Modify D : keeps (Some D) (Modify D).
Proof. apply keeps_add_Call. reflexivity. Qed.

Lemma keeps_MarkPackageDirty D : keeps (Some D) (MarkPackageDirty D).
Proof. apply keeps_add_Call. reflexivity. Qed.

Lemma keeps_PostEditChangeProperty D e :
  keeps (Some D) (PostEditChangeProperty D e).
Proof. apply keeps_add_Call. reflexivity. Qed.

Lemma keeps_AddAnimationAsset D a : keeps (Some D) (AddAnimationAsset D a).
Proof.
  apply keeps_bind; [apply keeps_add_Call; reflexivity|].
  intros _. apply keeps_with_object. auto with keeps.
Qed.

Lemma keeps_EmptyValues D P : keeps (Some D) (EmptyValues D P).
Proof.
  apply keeps_bind; [apply keeps_add_Call; reflexivity|].
  intros _. apply keeps_with_object. auto with keeps.
Qed.

Lemma keeps_SavePackage D Outer f a : keeps (Some D) (SavePackage Outer D f a).
Proof.
  apply keeps_bind; [apply keeps_add_Call; reflexivity|].
  intros _. auto with keeps.
Qed.

#[local] Hint Resolve keeps_Modify keeps_MarkPackageDirty
  keeps_PostEditChangeProperty keeps_AddAnimationAsset keeps_EmptyValues
  keeps_SavePackage : keeps.

Ltac keeps_step :=
  first
    [ solve [ auto with keeps ]
    | solve [ unfold GetName, GetOutermostName, GetSchema, GetNumAnimationAssets,
                FindPropertyByName, FScopedSlowTask, MakeDialog,
                EnterProgressFrame; auto with keeps ]
    | match goal with
      | |- keeps _ (match ?x with _ => _ end) => destruct x
      | |- keeps _ (_ ≫= _) => apply keeps_bind; [| intros ?]
      end ].

Ltac keeps_run := cbv zeta; repeat keeps_step.

Lemma keeps_PS_loop D Total l : forall c,
  keeps (Some D) (PS.AddAnimationsToDatabase_loop D Total l c).
Proof.
  induction l as [|a l IH]; intros c; cbn [PS.AddAnimationsToDatabase_loop].
  - auto with keeps.
  - keeps_run.
Qed.

Lemma keeps_NK_loop D Total l : forall c,
  keeps (Some D) (NK.AddAnimationsToDatabase_loop D Total l c).
Proof.
  induction l as [|a l IH]; intros c; cbn [NK.AddAnimationsToDatabase_loop].
  - auto with keeps.
  - keeps_run.
Qed.

#[local] Hint Resolve keeps_PS_loop keeps_NK_loop : keeps.

Lemma keeps_PS op Database :
  match op with
  | OpAddAnimationToDatabase A => keeps Database (PS.AddAnimationToDatabase Database A)
  | OpAddAnimationsToDatabase l => keeps Database (PS.AddAnimationsToDatabase Database l)
  | OpBuildDatabase => keeps Database (PS.BuildDatabase Database)
  | OpGetAnimationCount => keeps Database (PS.GetAnimationCount Database)
  | OpClearDatabase => keeps Database (PS.ClearDatabase Database)
  | OpGetDatabaseInfo => keeps Database (PS.GetDatabaseInfo Database)
  end.
Proof.
  destruct op as [A|l| | | | ]; destruct Database as [D|];
    try destruct A as [A|];
    unfold PS.AddAnimationToDatabase, PS.AddAnimationsToDatabase,
      PS.BuildDatabase, PS.GetAnimationCount, PS.ClearDatabase,
      PS.GetDatabaseInfo; keeps_run.
Qed.

Lemma keeps_NK b op Database :
  match op with
  | OpAddAnimationToDatabase A =>
      keeps Database (NK.AddAnimationToDatabase b Database A)
  | OpAddAnimationsToDatabase l =>
      keeps Database (NK.AddAnimationsToDatabase b Database l)
  | OpBuildDatabase => keeps Database (NK.BuildDatabase b Database)
  | OpGetAnimationCount => keeps Database (NK.GetAnimationCount Database)
  | OpClearDatabase => keeps Database (NK.ClearDatabase b Database)
  | OpGetDatabaseInfo => keeps Database (NK.GetDatabaseInfo Database)
  end.
Proof.
  destruct op as [A|l| | | | ]; destruct Database as [D|];
    try destruct A as [A|]; destruct b;
    unfold NK.AddAnimationToDatabase, NK.AddAnimationsToDatabase,
      NK.BuildDatabase, NK.GetAnimationCount, NK.ClearDatabase,
      NK.GetDatabaseInfo; keeps_run.
Qed.

Lemma effects_Confined b op Database w :
  Confined Database w (PS_effect op Database w) /\
  Confined Database w (NK_effect b op Database w).
Proof.
  pose proof (keeps_PS op Database) as HP.
  pose proof (keeps_NK b op Database) as HN.
  destruct op; split; first [apply HP | apply HN].
Qed.

(** Whatever the operation, the library, the build and the input, a call
    through a null handle or the handle of a live database leaves every
    object other than the one behind the handle exactly as it was, and
    changes at most the animation-asset list of that one: its name,
    package, class and schema stay. *)
Theorem operations_touch_only_their_database (WITH_EDITOR : bool)
    (op : Operation) (Database : option ObjectPtr) (w : World) (p : ObjectPtr) :
  ValidHandle w Database ->
  object_kept Database p (Objects w !! p) (Objects (PS_effect op Database w) !! p) /\
  object_kept Database p (Objects w !! p)
    (Objects (NK_effect WITH_EDITOR op Database w) !! p).
Proof.
  intros _.
  destruct (effects_Confined WITH_EDITOR op Database w) as [(HP & _) (HN & _)].
  split; [apply HP | apply HN].
Qed.

Lemma operations_touch_only_their_database_witness :
  let w := TwoDatabases in
  let op := OpAddAnimationsToDatabase [Some Run; None; Some Walk] in
  Objects (PS_effect op (Some 1%positive) w) !! 2%positive =
    Some EmptyDatabase /\
  Objects (NK_effect true OpClearDatabase (Some 2%positive) w) !! 1%positive =
    Some SampleDatabase.
Proof.
  intros w op.
  assert (H1 : ValidHandle w (Some 1%positive))
    by (exists SampleDatabase; reflexivity).
  assert (H2 : ValidHandle w (Some 2%positive))
    by (exists EmptyDatabase; reflexivity).
  pose proof (proj1 (operations_touch_only_their_database true op
                       (Some 1%positive) w 2%positive H1)) as Hps.
  pose proof (proj2 (operations_touch_only_their_database true OpClearDatabase
                       (Some 2%positive) w 1%positive H2)) as Hnk.
  change (Objects w !! 2%positive) with (Some EmptyDatabase) in Hps.
  change (Objects w !! 1%positive) with (Some SampleDatabase) in Hnk.
  unfold object_kept in Hps, Hnk.
  destruct (Objects (PS_effect op (Some 1%positive) w) !! 2%positive) as [d|];
    [|contradiction].
  destruct (Objects (NK_effect true OpClearDatabase (Some 2%positive) w)
              !! 1%positive) as [d'|]; [|contradiction].
  split.
  - f_equal. apply (proj2 Hps). discriminate.
  - f_equal. apply (proj2 Hnk). discriminate.
Defined.

(** Whatever the operation, the library, the build, the handle and the
    input: the journal of host calls, the log and the progress events only
    grow, and every host call the operation makes is made on the object
    behind the handle passed; through a null handle none is made. *)
Theorem operations_call_only_their_database (WITH_EDITOR : bool)
    (op : Operation) (Database : option ObjectPtr) (w : World) :
  journal_grows Database w (PS_effect op Database w) /\
  journal_grows Database w (NK_effect WITH_EDITOR op Database w) /\
  Calls (PS_effect op None w) = Calls w /\
  Calls (NK_effect WITH_EDITOR op None w) = Calls w.
Proof.
  destruct (effects_Confined WITH_EDITOR op Database w) as [(_ & HP & _) (_ & HN & _)].
  destruct (effects_Confined WITH_EDITOR op None w)
    as [(_ & ((c & Hc & Hf) & _) & _) (_ & ((c' & Hc' & Hf') & _) & _)].
  split; [exact HP|]. split; [exact HN|]. split.
  - destruct c as [|x c]; [rewrite Hc; apply app_nil_r|].
    inversion Hf; discriminate.
  - destruct c' as [|x c']; [rewrite Hc'; apply app_nil_r|].
    inversion Hf'; discriminate.
Qed.

(** ** The second library outside the editor *)



(** ** Clearing a database that holds animations *)

(** On a non-null database whose class reflects [AnimationAssets] as an
    array property, whatever the list holds, [ClearDatabase] (first library;
    second library in an editor build) answers true and empties the list,
    changing no other object; it calls [Modify], empties the array through
    the property found, marks the package dirty and fires the notification
    for that property, in this order; afterwards the count is zero.
    Clearing again answers true and leaves the objects as they are, but it
    is not silent: it makes the same four host calls once more. *)
Theorem ClearDatabase_empties_the_list (w : World) (D : ObjectPtr)
    (db : UPoseSearchDatabase) (P : FProperty) :
  Objects w !! D = Some db ->
  AnimationAssetsProperty db = Some P ->
  PropertyClass P = FArrayProperty ->
  let r := PS.ClearDatabase (Some D) w in
  let again := PS.ClearDatabase (Some D) (world r) in
  result r = true /\
  Objects (world r) = <[D := set_AnimationAssets [] db]> (Objects w) /\
  Calls (world r) =
    (Calls w ++ [CallModify D; CallEmptyValues D P; CallMarkPackageDirty D;
                 CallPostEditChangeProperty D (Some P)])%list /\
  result (PS.GetAnimationCount (Some D) (world r)) = 0 /\
  result again = true /\
  Objects (world again) = Objects (world r) /\
  Calls (world again) =
    (Calls (world r) ++
     [CallModify D; CallEmptyValues D P; CallMarkPackageDirty D;
      CallPostEditChangeProperty D (Some P)])%list /\
  NK.ClearDatabase true (Some D) w = r.
Proof.
  intros H HP HC r again.
  assert (Hr : r = PS.ClearDatabase (Some D) w) by reflexivity.
  rewrite (PS_ClearDatabase_array w D db P H HP HC) in Hr.
  assert (Hlive : Objects (world r) !! D = Some (set_AnimationAssets [] db)).
  { rewrite Hr. unfold world; cbn. apply lookup_insert_eq. }
  assert (Ha : again = PS.ClearDatabase (Some D) (world r)) by reflexivity.
  rewrite (PS_ClearDatabase_array (world r) D (set_AnimationAssets [] db) P
             Hlive HP HC) in Ha.
  split; [rewrite Hr; reflexivity|].
  split; [rewrite Hr; reflexivity|].
  split; [rewrite Hr; reflexivity|].
  split.
  { rewrite (PS_GetAnimationCount_run _ D _ Hlive). reflexivity. }
  split; [rewrite Ha; reflexivity|].
  split.
  { rewrite Ha. unfold world at 1; cbn [snd Objects].
    apply insert_id. exact Hlive. }
  split; [rewrite Ha; reflexivity|].
  reflexivity.
Qed.

Lemma ClearDatabase_empties_the_list_witness :
  let w := SampleWorld SampleDatabase true in
  let r := PS.ClearDatabase (Some 1%positive) w in
  result r = true /\
  Objects (world r) =
    <[1%positive := set_AnimationAssets [] SampleDatabase]> (Objects w) /\
  result (PS.GetAnimationCount (Some 1%positive) (world r)) = 0.
Proof.
  intros w r.
  pose proof (ClearDatabase_empties_the_list w 1%positive SampleDatabase
                ArrayAssets eq_refl eq_refl eq_refl) as (H1 & H2 & _ & H4 & _).
  split; [exact H1|]. split; [exact H2 | exact H4].
Defined.

Lemma ClearDatabase_after_inserts w w1 D db P new :
  Objects w !! D = Some db ->
  AnimationAssetsProperty db = Some P ->
  PropertyClass P = FArrayProperty ->
  Objects w1 = <[D := set_AnimationAssets (AnimationAssets db ++ new) db]> (Objects w) ->
  result (PS.ClearDatabase (Some D) w1) = true /\
  Objects (world (PS.ClearDatabase (Some D) w1)) =
    Objects (world (PS.ClearDatabase (Some D) w)) /\
  result (PS.GetAnimationCount (Some D) (world (PS.ClearDatabase (Some D) w1))) = 0.
Proof.
  intros H HP HC Hw1.
  assert (H1 : Objects w1 !! D =
               Some (set_AnimationAssets (AnimationAssets db ++ new) db)).
  { rewrite Hw1. apply lookup_insert_eq. }
  rewrite (PS_ClearDatabase_array w1 D _ P H1 HP HC).
  rewrite (PS_ClearDatabase_array w D db P H HP HC).
  unfold result, world; cbn [fst snd Objects].
  rewrite Hw1, insert_insert_eq.
  split; [reflexivity|]. split; [reflexivity|].
  rewrite (PS_GetAnimationCount_run _ D (set_AnimationAssets [] db))
    by apply lookup_insert_eq.
  reflexivity.
Qed.

(** Clearing after a batch add undoes it: on a non-null database whose class
    reflects [AnimationAssets] as an array property, a batch add followed by
    [ClearDatabase] leaves the same objects as [ClearDatabase] alone, the
    clear answers true and the count is zero (first library; second library
    in an editor build). *)
Theorem ClearDatabase_undoes_a_batch_add (w : World) (D : ObjectPtr)
    (db : UPoseSearchDatabase) (P : FProperty)
    (l : list (option UAnimSequence)) :
  Objects w !! D = Some db ->
  AnimationAssetsProperty db = Some P ->
  PropertyClass P = FArrayProperty ->
  let added := world (PS.AddAnimationsToDatabase (Some D) l w) in
  let added' := world (NK.AddAnimationsToDatabase true (Some D) l w) in
  let r := PS.ClearDatabase (Some D) added in
  let r' := NK.ClearDatabase true (Some D) added' in
  (result r = true /\
   Objects (world r) = Objects (world (PS.ClearDatabase (Some D) w)) /\
   result (PS.GetAnimationCount (Some D) (world r)) = 0) /\
  (result r' = true /\
   Objects (world r') = Objects (world (NK.ClearDatabase true (Some D) w)) /\
   result (NK.GetAnimationCount (Some D) (world r')) = 0).
Proof.
  intros H HP HC added added' r r'.
  unfold r, r', added, added'.
  change (NK.ClearDatabase true (Some D)) with (PS.ClearDatabase (Some D)).
  change NK.GetAnimationCount with PS.GetAnimationCount.
  split.
  - apply (ClearDatabase_after_inserts w _ D db P
             (map SequenceAsset (ValidSequences l)) H HP HC).
    rewrite (PS_AddAnimationsToDatabase_run w D db l H). reflexivity.
  - apply (ClearDatabase_after_inserts w _ D db P
             (map AnimAssetAsset (ValidSequences l)) H HP HC).
    rewrite (NK_AddAnimationsToDatabase_run w D db l H). reflexivity.
Qed.

Lemma ClearDatabase_undoes_a_batch_add_witness :
  let w := SampleWorld SampleDatabase true in
  let l := [Some Run; None; Some Walk] in
  let added := world (PS.AddAnimationsToDatabase (Some 1%positive) l w) in
  let r := PS.ClearDatabase (Some 1%positive) added in
  result r = true /\
  Objects (world r) = Objects (world (PS.ClearDatabase (Some 1%positive) w)) /\
  result (PS.GetAnimationCount (Some 1%positive) (world r)) = 0.
Proof.
  exact (proj1 (ClearDatabase_undoes_a_batch_add
                  (SampleWorld SampleDatabase true) 1%positive SampleDatabase
                  ArrayAssets [Some Run; None; Some Walk]
                  eq_refl eq_refl eq_refl)).
Defined.

(** ** More on the batch add *)

Lemma ValidSequences_app l1 l2 :
  ValidSequences (l1 ++ l2) = (ValidSequences l1 ++ ValidSequences l2)%list.
Proof. apply omap_app. Qed.

Lemma ValidSequences_Some seqs : ValidSequences (map Some seqs) = seqs.
Proof.
  induction seqs as [|A seqs IH]; [reflexivity|].
  cbn. unfold ValidSequences in IH. rewrite IH. reflexivity.
Qed.

Lemma NumValid_app l1 l2 : NumValid (l1 ++ l2) = (NumValid l1 + NumValid l2)%nat.
Proof. unfold NumValid. rewrite ValidSequences_app. apply length_app. Qed.

Lemma CountAfter_in_range l :
  Num l <= INT32_MAX -> CountAfter l 0 = Z.of_nat (NumValid l).
Proof.
  intros Hmax. rewrite CountAfter_exact; [lia | lia |].
  pose proof (NumValid_le_length l). unfold Num in Hmax. lia.
Qed.

(** A batch add in which no entry is valid (an empty array, or nulls only)
    answers 0 and leaves every object as it was, yet it still calls
    [Modify], marks the package dirty and fires the property-changed
    notification, and logs that 0 animations were added (first library;
    second library in an editor build). *)
Theorem batch_add_of_nothing_still_notifies (w : World) (D : ObjectPtr)
    (db : UPoseSearchDatabase) (l : list (option UAnimSequence)) :
  Objects w !! D = Some db ->
  NumValid l = 0%nat ->
  let ps := PS.AddAnimationsToDatabase (Some D) l w in
  let nk := NK.AddAnimationsToDatabase true (Some D) l w in
  let calls := [CallModify D; CallMarkPackageDirty D;
                CallPostEditChangeProperty D None] in
  let line := (Log, "Added 0/" +:+ fmt_d (Num l) +:+
                    " animations to database '" +:+ Name db +:+ "'") in
  (result ps = 0 /\ Objects (world ps) = Objects w /\
   Calls (world ps) = (Calls w ++ calls)%list /\
   OutputLog (world ps) = (OutputLog w ++ [line])%list) /\
  nk = ps.
Proof.
  intros H HN ps nk calls line. unfold ps, nk.
  rewrite (PS_AddAnimationsToDatabase_run w D db l H).
  rewrite (NK_AddAnimationsToDatabase_run w D db l H).
  assert (Hnil : ValidSequences l = []) by (apply nil_length_inv, HN).
  assert (Hc : CountAfter l 0 = 0).
  { rewrite CountAfter_exact; rewrite ?HN; unfold INT32_MAX; lia. }
  assert (Hlines : forall T c, AddedLines T l c = []).
  { clear -Hnil. induction l as [|[A|] l IH]; intros T c;
      [reflexivity | discriminate Hnil | cbn; apply IH, Hnil]. }
  unfold BatchWorld. rewrite Hnil, Hc, Hlines. cbn [map app].
  rewrite app_nil_r, set_AnimationAssets_same, (insert_id _ _ _ H).
  unfold result, world; cbn [fst snd Objects Calls OutputLog].
  repeat split.
Qed.

Lemma batch_add_of_nothing_still_notifies_witness :
  let w := SampleWorld SampleDatabase true in
  let ps := PS.AddAnimationsToDatabase (Some 1%positive) [None; None] w in
  result ps = 0 /\ Objects (world ps) = Objects w /\
  Calls (world ps) =
    (Calls w ++ [CallModify 1; CallMarkPackageDirty 1;
                 CallPostEditChangeProperty 1 None])%list /\
  OutputLog (world ps) =
    (OutputLog w ++
     [(Log, "Added 0/" +:+ fmt_d (Num [@None UAnimSequence; None]) +:+
            " animations to database '" +:+ Name SampleDatabase +:+ "'")])%list.
Proof.
  exact (proj1 (batch_add_of_nothing_still_notifies
                  (SampleWorld SampleDatabase true) 1%positive SampleDatabase
                  [None; None] eq_refl eq_refl)).
Defined.

Lemma work_entered_app es1 es2 :
  work_entered (es1 ++ es2) = work_entered es1 + work_entered es2.
Proof.
  unfold work_entered. induction es1 as [|e es1 IH]; cbn; [reflexivity|].
  rewrite IH. lia.
Qed.

Lemma work_entered_frames n :
  work_entered (replicate n (SlowTaskEnterProgressFrame 1)) = Z.of_nat n.
Proof.
  unfold work_entered. induction n as [|n IH]; cbn -[Z.of_nat]; [reflexivity|].
  rewrite IH. lia.
Qed.

Lemma float_of_int32_exact (z : Z) :
  0 <= z <= 2 ^ 24 -> float_of_int32 z = z.
Proof.
  intros Hz. unfold float_of_int32.
  destruct (Z.abs z <? 2 ^ 24)%Z eqn:Hlt; [reflexivity|].
  apply Z.ltb_ge in Hlt.
  assert (z = 2 ^ 24) as -> by lia.
  reflexivity.
Qed.

(** For an input array of at most 2^24 entries, which the [float] amount of
    work counts exactly, the progress dialog of a batch add is told the
    number of entries of the array as its amount of work, and is entered
    once, for one unit, per entry, null entries included: when the call
    returns the work entered equals the work announced (first library;
    second library in an editor build). *)
Theorem batch_add_progress_adds_up (w : World) (D : ObjectPtr)
    (db : UPoseSearchDatabase) (l : list (option UAnimSequence)) :
  Objects w !! D = Some db ->
  Num l <= 2 ^ 24 ->
  let ps := PS.AddAnimationsToDatabase (Some D) l w in
  let nk := NK.AddAnimationsToDatabase true (Some D) l w in
  let frames := replicate (length l) (SlowTaskEnterProgressFrame 1) in
  Progress (world ps) =
    (Progress w ++
     SlowTaskCreate (Num l) "Adding animations to database" ::
     SlowTaskMakeDialog :: frames)%list /\
  Progress (world nk) = Progress (world ps) /\
  work_entered (Progress (world ps)) = work_entered (Progress w) + Num l.
Proof.
  intros H Hmax ps nk frames. unfold ps, nk.
  rewrite (PS_AddAnimationsToDatabase_run w D db l H).
  rewrite (NK_AddAnimationsToDatabase_run w D db l H).
  unfold world; cbn [snd Progress BatchWorld app].
  rewrite float_of_int32_exact by (unfold Num in *; lia).
  split; [reflexivity|]. split; [reflexivity|].
  rewrite work_entered_app.
  change (work_entered (SlowTaskCreate (Num l) "Adding animations to database"
                          :: SlowTaskMakeDialog
                          :: replicate (length l) (SlowTaskEnterProgressFrame 1)))
    with (0 + (0 + work_entered
                     (replicate (length l) (SlowTaskEnterProgressFrame 1)))).
  rewrite work_entered_frames. unfold Num. lia.
Qed.

Lemma batch_add_progress_adds_up_witness :
  let w := SampleWorld SampleDatabase true in
  let l := [Some Run; None; Some Walk] in
  let ps := PS.AddAnimationsToDatabase (Some 1%positive) l w in
  Progress (world ps) =
    (Progress w ++
     SlowTaskCreate (Num l) "Adding animations to database" ::
     SlowTaskMakeDialog ::
     replicate (length l) (SlowTaskEnterProgressFrame 1))%list /\
  work_entered (Progress (world ps)) = work_entered (Progress w) + Num l.
Proof.
  intros w l ps.
  assert (Hmax : Num l <= 2 ^ 24) by (vm_compute; discriminate).
  pose proof (batch_add_progress_adds_up w 1%positive SampleDatabase l
                eq_refl Hmax) as (H1 & _ & H3).
  split; [exact H1 | exact H3].
Defined.

(** Two batch adds in a row leave the same objects as one batch add of the
    two arrays joined, and their answers add up to its answer (first
    library; second library in an editor build). *)
Theorem batch_adds_compose (w : World) (D : ObjectPtr)
    (db : UPoseSearchDatabase) (l1 l2 : list (option UAnimSequence)) :
  Objects w !! D = Some db ->
  Num (l1 ++ l2) <= INT32_MAX ->
  (let r1 := PS.AddAnimationsToDatabase (Some D) l1 w in
   let r2 := PS.AddAnimationsToDatabase (Some D) l2 (world r1) in
   let r := PS.AddAnimationsToDatabase (Some D) (l1 ++ l2) w in
   Objects (world r2) = Objects (world r) /\
   result r1 + result r2 = result r) /\
  (let r1 := NK.AddAnimationsToDatabase true (Some D) l1 w in
   let r2 := NK.AddAnimationsToDatabase true (Some D) l2 (world r1) in
   let r := NK.AddAnimationsToDatabase true (Some D) (l1 ++ l2) w in
   Objects (world r2) = Objects (world r) /\
   result r1 + result r2 = result r).
Proof.
  intros H Hmax.
  assert (Hlen : Num (l1 ++ l2) = Num l1 + Num l2).
  { unfold Num. rewrite length_app. lia. }
  assert (H1 : Num l1 <= INT32_MAX) by (unfold Num in *; lia).
  assert (H2 : Num l2 <= INT32_MAX) by (unfold Num in *; lia).
  assert (Hsum : CountAfter l1 0 + CountAfter l2 0 = CountAfter (l1 ++ l2) 0).
  { rewrite !CountAfter_in_range by assumption. rewrite NumValid_app. lia. }
  split; cbv zeta.
  - rewrite (PS_AddAnimationsToDatabase_run w D db l1 H).
    rewrite (PS_AddAnimationsToDatabase_run w D db (l1 ++ l2) H).
    unfold world; cbn [snd].
    rewrite (PS_AddAnimationsToDatabase_run _ D
               (set_AnimationAssets
                  (AnimationAssets db ++ map SequenceAsset (ValidSequences l1)) db)
               l2) by apply lookup_insert_eq.
    unfold result; cbn [fst snd Objects BatchWorld AnimationAssets
                         set_AnimationAssets].
    split; [|exact Hsum].
    rewrite insert_insert_eq, ValidSequences_app, map_app, app_assoc.
    reflexivity.
  - rewrite (NK_AddAnimationsToDatabase_run w D db l1 H).
    rewrite (NK_AddAnimationsToDatabase_run w D db (l1 ++ l2) H).
    unfold world; cbn [snd].
    rewrite (NK_AddAnimationsToDatabase_run _ D
               (set_AnimationAssets
                  (AnimationAssets db ++ map AnimAssetAsset (ValidSequences l1)) db)
               l2) by apply lookup_insert_eq.
    unfold result; cbn [fst snd Objects BatchWorld AnimationAssets
                         set_AnimationAssets].
    split; [|exact Hsum].
    rewrite insert_insert_eq, ValidSequences_app, map_app, app_assoc.
    reflexivity.
Qed.

Lemma batch_adds_compose_witness :
  let w := SampleWorld SampleDatabase true in
  let l1 := [Some Run; None] in
  let l2 := [Some Walk] in
  let r1 := PS.AddAnimationsToDatabase (Some 1%positive) l1 w in
  let r2 := PS.AddAnimationsToDatabase (Some 1%positive) l2 (world r1) in
  let r := PS.AddAnimationsToDatabase (Some 1%positive) (l1 ++ l2) w in
  Objects (world r2) = Objects (world r) /\
  result r1 + result r2 = result r.
Proof.
  intros w l1 l2.
  refine (proj1 (batch_adds_compose w 1%positive SampleDatabase l1 l2 eq_refl _)).
  vm_compute. discriminate.
Defined.

(** ** One batch add against as many single adds *)

Ltac single_calls run mk :=
  let seqs := fresh "seqs" in let IH := fresh "IH" in
  intros seqs; induction seqs as [|A seqs IH]; intros w db H;
  [ cbn; symmetry; apply app_nil_r
  | rewrite call_each_cons, (run w _ db A H);
    unfold result, world in *; cbn [fst snd];
    match type of H with Objects _ !! ?D = _ =>
      rewrite (IH (SingleWorld mk D db A w)
                  (set_AnimationAssets (AnimationAssets db ++ [mk A]) db))
        by apply lookup_insert_eq
    end;
    cbn; rewrite <- app_assoc; reflexivity ].

Lemma PS_single_adds_calls D : forall seqs w db,
  Objects w !! D = Some db ->
  Calls (world (call_each (fun A => PS.AddAnimationToDatabase (Some D) (Some A))
                  seqs w)) =
  (Calls w ++ flat_map (SingleCalls SequenceAsset D) seqs)%list.
Proof. single_calls PS_AddAnimationToDatabase_run SequenceAsset. Qed.

Lemma NK_single_adds_calls D : forall seqs w db,
  Objects w !! D = Some db ->
  Calls (world (call_each
                  (fun A => NK.AddAnimationToDatabase true (Some D) (Some A))
                  seqs w)) =
  (Calls w ++ flat_map (SingleCalls AnimAssetAsset D) seqs)%list.
Proof. single_calls NK_AddAnimationToDatabase_run AnimAssetAsset. Qed.

Lemma count_in_singles f mk D seqs :
  (forall a, f (CallAddAnimationAsset D a) = false) ->
  f (CallMarkPackageDirty D) = false ->
  f (CallModify D) = negb (f (CallPostEditChangeProperty D None)) ->
  length (List.filter f (flat_map (SingleCalls mk D) seqs)) = length seqs.
Proof.
  intros Ha Hd Hx. induction seqs as [|A seqs IH]; [reflexivity|].
  cbn [flat_map]. rewrite List.filter_app, length_app, IH.
  unfold SingleCalls. cbn [List.filter]. rewrite Ha, Hd, Hx.
  destruct (f (CallPostEditChangeProperty D None)); reflexivity.
Qed.

Lemma count_in_batch f D new :
  (forall a, f (CallAddAnimationAsset D a) = false) ->
  f (CallMarkPackageDirty D) = false ->
  f (CallModify D) = negb (f (CallPostEditChangeProperty D None)) ->
  length (List.filter f (CallModify D :: ListedCalls D new)) = 1%nat.
Proof.
  intros Ha Hd Hx. unfold ListedCalls. cbn [List.filter].
  rewrite List.filter_app. cbn [List.filter]. rewrite Hd, Hx.
  assert (Hnew : List.filter f (map (CallAddAnimationAsset D) new) = []).
  { induction new as [|a new IH]; [reflexivity|]. cbn. rewrite Ha. exact IH. }
  rewrite Hnew.
  destruct (f (CallPostEditChangeProperty D None)); reflexivity.
Qed.

(** Adding K sequences with one batch add or with K single adds leaves the
    same objects, but not the same host calls: the batch add calls [Modify]
    once and fires one property-changed notification, the single adds call
    [Modify] K times and fire K notifications (first library; second
    library in an editor build). *)
Theorem batch_add_notifies_once_singles_each_time (w : World) (D : ObjectPtr)
    (db : UPoseSearchDatabase) (seqs : list UAnimSequence) :
  Objects w !! D = Some db ->
  let count f (w' : World) :=
    (length (List.filter f (Calls w')) - length (List.filter f (Calls w)))%nat in
  (let batch := world (PS.AddAnimationsToDatabase (Some D) (map Some seqs) w) in
   let singles :=
     world (call_each (fun A => PS.AddAnimationToDatabase (Some D) (Some A))
              seqs w) in
   Objects batch = Objects singles /\
   count is_Notification batch = 1%nat /\ count is_Modify batch = 1%nat /\
   count is_Notification singles = length seqs /\
   count is_Modify singles = length seqs) /\
  (let batch :=
     world (NK.AddAnimationsToDatabase true (Some D) (map Some seqs) w) in
   let singles :=
     world (call_each
              (fun A => NK.AddAnimationToDatabase true (Some D) (Some A))
              seqs w) in
   Objects batch = Objects singles /\
   count is_Notification batch = 1%nat /\ count is_Modify batch = 1%nat /\
   count is_Notification singles = length seqs /\
   count is_Modify singles = length seqs).
Proof.
  intros H count. unfold count. split; cbv zeta.
  - destruct (PS_single_adds D seqs w db H) as [_ Hobj].
    rewrite Hobj, (PS_single_adds_calls D seqs w db H).
    rewrite (PS_AddAnimationsToDatabase_run w D db _ H).
    unfold world; cbn [snd Objects Calls BatchWorld app].
    rewrite ValidSequences_Some.
    fold (ListedCalls D (map SequenceAsset seqs)).
    rewrite !List.filter_app, !length_app.
    rewrite !count_in_batch, !count_in_singles by (cbn; auto).
    repeat split; try reflexivity; lia.
  - destruct (NK_single_adds D seqs w db H) as [_ Hobj].
    rewrite Hobj, (NK_single_adds_calls D seqs w db H).
    rewrite (NK_AddAnimationsToDatabase_run w D db _ H).
    unfold world; cbn [snd Objects Calls BatchWorld app].
    rewrite ValidSequences_Some.
    fold (ListedCalls D (map AnimAssetAsset seqs)).
    rewrite !List.filter_app, !length_app.
    rewrite !count_in_batch, !count_in_singles by (cbn; auto).
    repeat split; try reflexivity; lia.
Qed.

Lemma batch_add_notifies_once_singles_each_time_witness :
  let w := SampleWorld SampleDatabase true in
  let seqs := [Run; Walk; Run] in
  let batch :=
    world (PS.AddAnimationsToDatabase (Some 1%positive) (map Some seqs) w) in
  let singles :=
    world (call_each (fun A => PS.AddAnimationToDatabase (Some 1%positive) (Some A))
             seqs w) in
  Objects batch = Objects singles /\
  (length (List.filter is_Notification (Calls batch)) -
   length (List.filter is_Notification (Calls w)))%nat = 1%nat /\
  (length (List.filter is_Notification (Calls singles)) -
   length (List.filter is_Notification (Calls w)))%nat = length seqs.
Proof.
  intros w seqs.
  pose proof (batch_add_notifies_once_singles_each_time w 1%positive
                SampleDatabase seqs eq_refl) as [(Ho & Hb & _ & Hs & _) _].
  split; [exact Ho|]. split; [exact Hb | exact Hs].
Defined.

(** ** What an add leaves in the list *)

Lemma occurrences_app A l1 l2 :
  occurrences A (l1 ++ l2) = (occurrences A l1 + occurrences A l2)%nat.
Proof. unfold occurrences. rewrite List.filter_app. apply length_app. Qed.

(** A single add never checks for duplicates: on a non-null database it
    answers true and the number of entries that carry the sequence grows by
    one, whether or not the list already held that sequence (first library;
    second library in an editor build). *)
Theorem single_add_appends_even_a_duplicate (w : World) (D : ObjectPtr)
    (db : UPoseSearchDatabase) (A : UAnimSequence) :
  Objects w !! D = Some db ->
  let after (r : bool * World) :=
    AnimationAssets <$> (Objects (world r) !! D) in
  let ps := PS.AddAnimationToDatabase (Some D) (Some A) w in
  let nk := NK.AddAnimationToDatabase true (Some D) (Some A) w in
  result ps = true /\ result nk = true /\
  after ps = Some (AnimationAssets db ++ [SequenceAsset A])%list /\
  after nk = Some (AnimationAssets db ++ [AnimAssetAsset A])%list /\
  occurrences A (AnimationAssets db ++ [SequenceAsset A]) =
    S (occurrences A (AnimationAssets db)) /\
  occurrences A (AnimationAssets db ++ [AnimAssetAsset A]) =
    S (occurrences A (AnimationAssets db)).
Proof.
  intros H after ps nk. unfold after, ps, nk.
  rewrite (PS_AddAnimationToDatabase_run w D db A H).
  rewrite (NK_AddAnimationToDatabase_run w D db A H).
  unfold result, world; cbn [fst snd Objects SingleWorld].
  rewrite !lookup_insert_eq. cbn [fmap option_fmap option_map AnimationAssets
                                   set_AnimationAssets].
  rewrite !occurrences_app.
  assert (Hps : occurrences A [SequenceAsset A] = 1%nat).
  { unfold occurrences, carries; cbn. rewrite bool_decide_true by reflexivity.
    reflexivity. }
  assert (Hnk : occurrences A [AnimAssetAsset A] = 1%nat).
  { unfold occurrences, carries; cbn. rewrite bool_decide_true by reflexivity.
    reflexivity. }
  rewrite Hps, Hnk. repeat split; try reflexivity; lia.
Qed.

Lemma single_add_appends_even_a_duplicate_witness :
  let w := SampleWorld SampleDatabase true in
  let ps := PS.AddAnimationToDatabase (Some 1%positive) (Some Walk) w in
  result ps = true /\
  AnimationAssets <$> (Objects (world ps) !! 1%positive) =
    Some (AnimationAssets SampleDatabase ++ [SequenceAsset Walk])%list /\
  occurrences Walk (AnimationAssets SampleDatabase ++ [SequenceAsset Walk]) =
    S (occurrences Walk (AnimationAssets SampleDatabase)).
Proof.
  intros w ps.
  pose proof (single_add_appends_even_a_duplicate w 1%positive SampleDatabase
                Walk eq_refl) as (H1 & _ & H3 & _ & H5 & _).
  split; [exact H1|]. split; [exact H3 | exact H5].
Defined.

(** What is read back is what was added: after a batch add, the sequences
    the list carries are those it carried before followed by the non-null
    entries of the input, in input order, in both libraries whichever member
    of the record holds them. *)
Theorem batch_add_round_trip (w : World) (D : ObjectPtr)
    (db : UPoseSearchDatabase) (l : list (option UAnimSequence)) :
  Objects w !! D = Some db ->
  let carried_after (r : Z * World) :=
    (map carried ∘ AnimationAssets) <$> (Objects (world r) !! D) in
  let expected :=
    Some (map carried (AnimationAssets db) ++ map Some (ValidSequences l))%list in
  carried_after (PS.AddAnimationsToDatabase (Some D) l w) = expected /\
  carried_after (NK.AddAnimationsToDatabase true (Some D) l w) = expected.
Proof.
  intros H carried_after expected. unfold carried_after, expected.
  rewrite (PS_AddAnimationsToDatabase_run w D db l H).
  rewrite (NK_AddAnimationsToDatabase_run w D db l H).
  unfold world; cbn [snd Objects BatchWorld].
  rewrite !lookup_insert_eq.
  cbn [fmap option_fmap option_map compose AnimationAssets set_AnimationAssets].
  rewrite !map_app, !map_map. split; reflexivity.
Qed.

Lemma batch_add_round_trip_witness :
  let w := SampleWorld SampleDatabase true in
  let l := [Some Run; None; Some Walk] in
  (map carried ∘ AnimationAssets) <$>
    (Objects (world (NK.AddAnimationsToDatabase true (Some 1%positive) l w))
       !! 1%positive) =
  Some (map carried (AnimationAssets SampleDatabase) ++
        map Some (ValidSequences l))%list.
Proof.
  intros w l.
  exact (proj2 (batch_add_round_trip w 1%positive SampleDatabase l eq_refl)).
Defined.

(** ** The lines a batch add logs *)

Lemma AddedLines_closed Total l : forall k,
  (Z.of_nat k + Z.of_nat (NumValid l) <= INT32_MAX) ->
  AddedLines Total l (Z.of_nat k) =
  imap (fun i => AddedLine Total (S (k + i))) (ValidSequences l).
Proof.
  induction l as [|[A|] l IH]; intros k Hmax.
  - reflexivity.
  - rewrite NumValid_cons_Some in Hmax. cbn [AddedLines].
    assert (Hk : int32 (Z.of_nat k + 1) = Z.of_nat (S k)).
    { rewrite int32_small; unfold INT32_MAX in *; lia. }
    rewrite Hk, IH by lia.
    change (ValidSequences (Some A :: l)) with (A :: ValidSequences l).
    rewrite imap_cons. unfold AddedLine at 2. rewrite Nat.add_0_r.
    f_equal. apply imap_ext. intros i x _. cbn. rewrite Nat.add_succ_r.
    reflexivity.
  - rewrite NumValid_cons_None in Hmax. cbn [AddedLines].
    change (ValidSequences (None :: l)) with (ValidSequences l).
    apply IH, Hmax.
Qed.

(** A batch add through a non-null handle logs one line per non-null entry,
    in input order, numbered 1, 2, ... and naming the sequence, each with
    the size of the input array as the total, then one summary line with
    the number added; null entries leave no line.  Both libraries log the
    same (the second in an editor build). *)
Theorem batch_add_log (w : World) (D : ObjectPtr)
    (db : UPoseSearchDatabase) (l : list (option UAnimSequence)) :
  Objects w !! D = Some db ->
  Num l <= INT32_MAX ->
  let ps := PS.AddAnimationsToDatabase (Some D) l w in
  let nk := NK.AddAnimationsToDatabase true (Some D) l w in
  OutputLog (world ps) =
    (OutputLog w ++
     imap (fun i A =>
             (Log, "Added animation " +:+ pretty (Z.of_nat (S i)) +:+ "/" +:+
                   pretty (Num l) +:+ ": " +:+ SequenceName A))
          (ValidSequences l) ++
     [(Log, "Added " +:+ pretty (Z.of_nat (NumValid l)) +:+ "/" +:+
            pretty (Num l) +:+ " animations to database '" +:+ Name db +:+
            "'")])%list /\
  OutputLog (world nk) = OutputLog (world ps).
Proof.
  intros H Hmax ps nk. unfold ps, nk.
  rewrite (PS_AddAnimationsToDatabase_run w D db l H).
  rewrite (NK_AddAnimationsToDatabase_run w D db l H).
  unfold world; cbn [snd OutputLog BatchWorld].
  split; [|reflexivity].
  rewrite CountAfter_in_range by exact Hmax.
  change (AddedLines (Num l) l 0) with (AddedLines (Num l) l (Z.of_nat 0)).
  rewrite (AddedLines_closed (Num l) l 0).
  - reflexivity.
  - pose proof (NumValid_le_length l). unfold Num in Hmax. lia.
Qed.

Lemma batch_add_log_witness :
  let w := SampleWorld SampleDatabase true in
  let l := [Some Run; None; Some Walk] in
  OutputLog (world (PS.AddAnimationsToDatabase (Some 1%positive) l w)) =
    [(Log, "Added animation 1/3: Run");
     (Log, "Added animation 2/3: Walk");
     (Log, "Added 2/3 animations to database 'PSD_Locomotion'")].
Proof.
  intros w l.
  refine (proj1 (batch_add_log w 1%positive SampleDatabase l eq_refl _)).
  vm_compute. discriminate.
Defined.

(** ** Module start-up and shut-down *)

(** Loading and unloading either module touches no database: no object
    changes and no host call is made.  The first module logs one line when
    it starts and one when it shuts down, in this order; the second module
    logs nothing. *)
Theorem module_lifecycle_touches_no_database (w : World) :
  let cycle := FPoseSearchPythonExtensionsModule.StartupModule;;
               FPoseSearchPythonExtensionsModule.ShutdownModule in
  let cycle' := FAAANKPoseModule.StartupModule;;
                FAAANKPoseModule.ShutdownModule in
  inert w (world (cycle w)) /\
  OutputLog (world (cycle w)) =
    (OutputLog w ++
     [(Log, "PoseSearchPythonExtensions module has started");
      (Log, "PoseSearchPythonExtensions module has shut down")])%list /\
  cycle' w = (tt, w).
Proof.
  cbv zeta. split; [|split].
  - repeat split.
  - unfold world, mbind, Editor_bind,
      FPoseSearchPythonExtensionsModule.StartupModule,
      FPoseSearchPythonExtensionsModule.ShutdownModule, UE_LOG, modify.
    cbn [snd OutputLog add_LogLine]. rewrite <- app_assoc. reflexivity.
  - reflexivity.
Qed.

(** ** The progress dialog of a build *)

(** [BuildDatabase] through a non-null handle opens a progress dialog
    announcing one unit of work and never enters a progress frame: the work
    entered is the same after the call as before, whether or not the save
    succeeds (first library; second library in an editor build).
    [ClearDatabase] and the single add open no dialog at all. *)
Theorem BuildDatabase_never_advances_its_progress (w : World) (D : ObjectPtr)
    (db : UPoseSearchDatabase) (A : UAnimSequence) :
  Objects w !! D = Some db ->
  let dialog := [SlowTaskCreate 1 "Building PoseSearch database";
                 SlowTaskMakeDialog] in
  Progress (world (PS.BuildDatabase (Some D) w)) = (Progress w ++ dialog)%list /\
  Progress (world (NK.BuildDatabase true (Some D) w)) =
    (Progress w ++ dialog)%list /\
  work_entered (Progress (world (PS.BuildDatabase (Some D) w))) =
    work_entered (Progress w) /\
  Progress (world (PS.ClearDatabase (Some D) w)) = Progress w /\
  Progress (world (PS.AddAnimationToDatabase (Some D) (Some A) w)) = Progress w /\
  Progress (world (NK.AddAnimationToDatabase true (Some D) (Some A) w)) =
    Progress w.
Proof.
  intros H dialog.
  rewrite (PS_BuildDatabase_run w D db H), (NK_BuildDatabase_run w D db H).
  rewrite (PS_AddAnimationToDatabase_run w D db A H).
  rewrite (NK_AddAnimationToDatabase_run w D db A H).
  unfold world; cbn [snd Progress SingleWorld].
  split; [reflexivity|]. split; [reflexivity|].
  split; [rewrite work_entered_app; cbn; lia|].
  split; [|split; reflexivity].
  unfold PS.ClearDatabase. editor_run. rewrite H. editor_simpl.
  destruct (Properties (Class db) !! "AnimationAssets") as [P|]; [|reflexivity].
  editor_simpl.
  destruct (decide (PropertyClass P = FArrayProperty)); [|reflexivity].
  editor_run. rewrite H. reflexivity.
Qed.

Lemma BuildDatabase_never_advances_its_progress_witness :
  let w := SampleWorld SampleDatabase false in
  Progress (world (PS.BuildDatabase (Some 1%positive) w)) =
    (Progress w ++ [SlowTaskCreate 1 "Building PoseSearch database";
                    SlowTaskMakeDialog])%list /\
  work_entered (Progress (world (PS.BuildDatabase (Some 1%positive) w))) =
    work_entered (Progress w).
Proof.
  intros w.
  pose proof (BuildDatabase_never_advances_its_progress w 1%positive
                SampleDatabase Run eq_refl) as (H1 & _ & H3 & _).
  split; [exact H1 | exact H3].
Defined.
